(** * Deployment orchestrator for the travel assistant: model and properties

    The repository holds two command-line scripts,
    [deploy-sagemaker-model.py] and [scripts/deploy-sagemaker.py].  Both are
    sequences of calls to the cloud provider (IAM, SageMaker) and to the
    SageMaker SDK, wrapped in [try]/[except] blocks, with console output in
    between.

    The scripts are embedded as programs of a small monad: a program reads the
    provider (an oracle that answers every call, possibly depending on
    everything that happened before), emits a list of observable events
    (calls with their outcome, printed lines, sleeps) and either returns a
    value or raises a Python exception. *)

From Stdlib Require Import String Ascii List ZArith Bool Lia.
From Stdlib Require Import DecimalString.
Import ListNotations.
Open Scope string_scope.
Open Scope list_scope.
Open Scope Z_scope.

Set Warnings "-register-all".

(** ** Python values and exceptions *)

Module Py.

(** Exceptions the scripts can observe.  All of them derive from
    [Exception]; [NoSuchEntityException] derives from [ClientError], as in
    botocore.  [exn_str] is what [str(e)] gives. *)
Inductive ExnClass : Type :=
| NoSuchEntityException
| ClientError
| IndexError
| KeyError
| TypeError
| AttributeError
| OtherException.

Record Exn : Type := mkExn { exn_class : ExnClass; exn_str : string }.

Definition isinstance_NoSuchEntity (e : Exn) : bool :=
  match exn_class e with NoSuchEntityException => true | _ => false end.

Definition isinstance_ClientError (e : Exn) : bool :=
  match exn_class e with
  | NoSuchEntityException | ClientError => true
  | _ => false
  end.

Inductive Result (A : Type) : Type :=
| Ok (a : A)
| Raise (e : Exn).
Arguments Ok {A} a.
Arguments Raise {A} e.

(** Values of inference payloads and replies: what JSON holds, and the raw
    bytes a predictor without deserialiser returns.  A float literal is kept
    as its source text; a text is kept as its UTF-8 encoding, so a
    character is one leading byte with the continuation bytes that follow
    it. *)
Inductive pyval : Type :=
| PyNone
| PyBool (b : bool)
| PyInt (z : Z)
| PyFloat (literal : string)
| PyStr (s : string)
| PyBytes (b : string)
| PyList (l : list pyval)
| PyDict (d : list (string * pyval)).

Definition type_name (v : pyval) : string :=
  match v with
  | PyNone => "NoneType"
  | PyBool _ => "bool"
  | PyInt _ => "int"
  | PyFloat _ => "float"
  | PyStr _ => "str"
  | PyBytes _ => "bytes"
  | PyList _ => "list"
  | PyDict _ => "dict"
  end.

(** A byte [10xxxxxx]: inside a character of a UTF-8 text. *)
Definition is_continuation (c : ascii) : bool :=
  match c with
  | Ascii _ _ _ _ _ _ b6 b7 => b7 && negb b6
  end.

(** [len(s)] of a text: its number of characters. *)
Fixpoint char_count (s : string) : nat :=
  match s with
  | EmptyString => O
  | String c rest =>
      if is_continuation c then char_count rest else S (char_count rest)
  end.

(** [s[:n]] of a text: its first [n] characters, each with all its
    bytes. *)
Fixpoint take_chars (n : nat) (s : string) : string :=
  match s with
  | EmptyString => EmptyString
  | String c rest =>
      if is_continuation c then String c (take_chars n rest)
      else match n with
           | O => EmptyString
           | S k => String c (take_chars k rest)
           end
  end.

(** [d.get(key)] on a dict literal kept in insertion order. *)
Fixpoint dict_get {V : Type} (key : string) (d : list (string * V)) : option V :=
  match d with
  | [] => None
  | (k, v) :: rest => if String.eqb k key then Some v else dict_get key rest
  end.

(** [needle in haystack] on strings. *)
Definition contains (needle haystack : string) : bool :=
  match String.index 0 needle haystack with
  | Some _ => true
  | None => false
  end.

(** [s * n] *)
Fixpoint str_repeat (s : string) (n : nat) : string :=
  match n with
  | O => EmptyString
  | S k => String.append s (str_repeat s k)
  end.

Definition str_of_nat (n : nat) : string :=
  NilZero.string_of_uint (Nat.to_uint n).

Definition nl : string := String (ascii_of_nat 10) EmptyString.

(** An f-string: the concatenation of its literal and formatted parts. *)
Fixpoint fstr (parts : list string) : string :=
  match parts with
  | [] => EmptyString
  | [x] => x
  | x :: rest => String.append x (fstr rest)
  end.

(** [str(x)] of a value that is a string or [None]. *)
Definition str_of_option (o : option string) : string :=
  match o with
  | Some s => s
  | None => "None"
  end.

(** Truthiness of a value that is a string or [None]. *)
Definition truthy (o : option string) : bool :=
  match o with
  | Some s => negb (String.eqb s EmptyString)
  | None => false
  end.

End Py.
Import Py.


(** ** The provider interface

    Everything the scripts reach outside their own code: boto3 clients, the
    IAM and SageMaker APIs, and the objects of the SageMaker SDK.  A call is
    indexed by the type of what it returns. *)

Module Sdk.

(** [response['Role']] of [get_role] and [create_role]. *)
Record Role : Type := mkRole { Arn : string }.

(** The text [json.dumps(v)]; the serialiser belongs to Python's library and
    is kept as a constructor. *)
Inductive JsonText : Type := json_dumps (v : pyval).

(** Keyword arguments of [HuggingFaceModel(...)]. *)
Record HuggingFaceModel : Type := mkModel {
  model_data : option (list (string * string));
  transformers_version : string;
  pytorch_version : string;
  py_version : string;
  role : string;
  env : option (list (string * string))
}.

Record ServerlessInferenceConfig : Type := mkServerless {
  memory_size_in_mb : Z;
  max_concurrency : Z
}.

(** Keyword arguments of [huggingface_model.deploy(...)]; an argument that
    is not passed is [None]. *)
Record DeployArgs : Type := mkDeployArgs {
  initial_instance_count : option Z;
  instance_type : option string;
  serverless_inference_config : option ServerlessInferenceConfig;
  endpoint_name : string;
  wait : option bool;
  tags : option (list (list (string * string)))
}.

Record Predictor : Type := mkPredictor { predictor_endpoint_name : string }.

(** One entry of [response['Endpoints']]; the creation time is kept as the
    text the f-string prints. *)
Record EndpointSummary : Type := mkSummary {
  EndpointName : string;
  EndpointStatus : string;
  CreationTime : string
}.

Inductive Call : Type -> Type :=
| Boto3Client (service : string) : Call unit
| Boto3SessionRegionName : Call (option string)
| IamGetRole (RoleName : string) : Call Role
| IamCreateRole (RoleName : string) (AssumeRolePolicyDocument : JsonText)
    (Description : string) : Call Role
| IamAttachRolePolicy (RoleName PolicyArn : string) : Call unit
| NewHuggingFaceModel (m : HuggingFaceModel) : Call unit
| ImportServerlessInferenceConfig : Call unit
| NewServerlessInferenceConfig (c : ServerlessInferenceConfig) : Call unit
| ModelDeploy (m : HuggingFaceModel) (a : DeployArgs) : Call Predictor
| PredictorPredict (pr : Predictor) (payload : pyval) : Call pyval
| SmListEndpoints : Call (list EndpointSummary)
| SmDescribeEndpoint (name : string) : Call string
| SmDeleteEndpoint (name : string) : Call unit
| SmDeleteEndpointConfig (name : string) : Call unit
| SagemakerSession : Call unit
| SagemakerGetExecutionRole : Call string
| NewPredictor (name : string) : Call Predictor.

(** What a run leaves behind, in order. *)
Inductive Event : Type :=
| EPrint (line : string)
| EPrintVal (before : string) (v : pyval) (after : string)
| ESleep (seconds : Z)
| ECall (R : Type) (c : Call R) (r : Result R).

Arguments ECall {R} c r.

Definition Trace : Type := list Event.

(** The provider answers a call knowing the whole history of the run, so a
    stateful provider (or a mock) is a value of this type. *)
Definition Provider : Type := forall R : Type, Trace -> Call R -> Result R.

End Sdk.
Import Sdk.

(** ** Programs *)

Module Prog.

Definition M (A : Type) : Type := Provider -> Trace -> Trace * Result A.

Definition ret {A} (a : A) : M A := fun _ _ => ([], Ok a).

Definition raise {A} (e : Exn) : M A := fun _ _ => ([], Raise e).

Definition bind {A B} (m : M A) (k : A -> M B) : M B :=
  fun p h =>
    match m p h with
    | (t1, Ok a) =>
        match k a p (h ++ t1) with
        | (t2, r) => (t1 ++ t2, r)
        end
    | (t1, Raise e) => (t1, Raise e)
    end.

(** [try: m except C as e: handler], where [catches] decides membership in
    the class [C]. *)
Definition try_except {A} (m : M A) (catches : Exn -> bool)
    (handler : Exn -> M A) : M A :=
  fun p h =>
    match m p h with
    | (t1, Ok a) => (t1, Ok a)
    | (t1, Raise e) =>
        if catches e then
          match handler e p (h ++ t1) with
          | (t2, r) => (t1 ++ t2, r)
          end
        else (t1, Raise e)
    end.

(** [except Exception] and the bare [except:] catch every modelled
    exception. *)
Definition Exception (_ : Exn) : bool := true.

Definition emit (ev : Event) : M unit := fun _ _ => ([ev], Ok tt).

Definition print (line : string) : M unit := emit (EPrint line).

Definition sleep (seconds : Z) : M unit := emit (ESleep seconds).

Definition call {R} (c : Call R) : M R :=
  fun p h =>
    match p R h c with
    | Ok a => ([ECall c (Ok a)], Ok a)
    | Raise e => ([ECall c (Raise e)], Raise e)
    end.

(** A pure step that may raise (item access, attribute access). *)
Definition lift {A} (r : Result A) : M A := fun _ _ => ([], r).

Definition run {A} (m : M A) (p : Provider) : Trace * Result A := m p [].

End Prog.
Import Prog.

Declare Scope prog_scope.
Delimit Scope prog_scope with prog.
Notation "x <- m ;; k" := (bind m (fun x => k))
  (at level 100, m at next level, right associativity) : prog_scope.
Notation "m ;; k" := (bind m (fun _ => k))
  (at level 100, right associativity) : prog_scope.
Open Scope prog_scope.

(** ** deploy-sagemaker-model.py *)

Module DeployModel.

Definition role_name : string := "SageMakerTravelAssistantRole".

(** Trust policy for SageMaker *)
Definition trust_policy : pyval :=
  PyDict [
    ("Version", PyStr "2012-10-17");
    ("Statement", PyList [
       PyDict [
         ("Effect", PyStr "Allow");
         ("Principal", PyDict [("Service", PyStr "sagemaker.amazonaws.com")]);
         ("Action", PyStr "sts:AssumeRole")
       ]
     ])
  ].

Definition full_access_policy : string :=
  "arn:aws:iam::aws:policy/AmazonSageMakerFullAccess".

(** Get or create SageMaker execution role *)
Definition get_execution_role : M string :=
  try_except
    (call (Boto3Client "iam") ;;
     try_except
       (role <- call (IamGetRole role_name) ;;
        print (fstr ["✓ Using existing role: "; Arn role]) ;;
        ret (Arn role))
       isinstance_NoSuchEntity
       (fun _ =>
          print (fstr ["Creating new IAM role: "; role_name]) ;;
          role <- call (IamCreateRole role_name (json_dumps trust_policy)
                          "Execution role for Travel Assistant SageMaker endpoint") ;;
          call (IamAttachRolePolicy role_name full_access_policy) ;;
          print "Waiting for role to propagate..." ;;
          sleep 10 ;;
          print (fstr ["✓ Created role: "; Arn role]) ;;
          ret (Arn role)))
    Exception
    (fun e =>
       print (fstr ["Error with IAM role: "; exn_str e]) ;;
       print (fstr [nl; "Please manually create a SageMaker execution role with:"]) ;;
       print "1. Trust policy for sagemaker.amazonaws.com" ;;
       print "2. AmazonSageMakerFullAccess policy attached" ;;
       raise e).

(** Get estimated hourly cost for instance type *)
Definition costs : list (string * string) :=
  [ ("ml.t2.medium", "0.065");
    ("ml.t2.large", "0.130");
    ("ml.m5.large", "0.134");
    ("ml.g4dn.xlarge", "0.736");
    ("ml.inf1.xlarge", "0.228") ].

Definition get_estimated_cost (instance_type : string) : string :=
  match dict_get instance_type costs with
  | Some c => c
  | None => "unknown"
  end.

Definition model_id : string := "facebook/blenderbot-400M-distill".

Definition test_payload : pyval :=
  PyDict [("inputs", PyStr "Hello! I want to plan a trip to Japan.")].

(** The [HuggingFaceModel(...)] of [deploy_model]. *)
Definition deploy_model_descriptor (role : string) : HuggingFaceModel :=
  {| model_data := Some [("HF_MODEL_ID", model_id); ("HF_TASK", "conversational")];
     transformers_version := "4.26.0";
     pytorch_version := "1.13.1";
     py_version := "py39";
     role := role;
     env := Some [("HF_MODEL_ID", model_id);
                  ("HF_TASK", "conversational");
                  ("MAX_LENGTH", "512");
                  ("TEMPERATURE", "0.7")] |}.

(** Deploy Hugging Face model to SageMaker *)
Definition deploy_model (instance_type endpoint_name : string) : M unit :=
  print (fstr [nl; str_repeat "=" 60]) ;;
  print "🚀 SageMaker Travel AI Assistant Deployment" ;;
  print (fstr [str_repeat "=" 60; nl]) ;;
  got <- try_except
           (role <- get_execution_role ;; ret (Some role))
           Exception
           (fun e =>
              print (fstr ["❌ Failed to get execution role: "; exn_str e]) ;;
              ret None) ;;
  match got with
  | None => ret tt
  | Some role =>
      print (fstr [nl; "📦 Preparing Hugging Face model..."]) ;;
      print "   Model: facebook/blenderbot-400M-distill" ;;
      print (fstr ["   Instance: "; instance_type]) ;;
      print (fstr ["   Endpoint: "; endpoint_name]) ;;
      built <- try_except
                 (let huggingface_model := deploy_model_descriptor role in
                  call (NewHuggingFaceModel huggingface_model) ;;
                  print "✓ Model configuration created" ;;
                  ret (Some huggingface_model))
                 Exception
                 (fun e =>
                    print (fstr ["❌ Failed to create model: "; exn_str e]) ;;
                    ret None) ;;
      match built with
      | None => ret tt
      | Some huggingface_model =>
          print (fstr [nl; "🚀 Deploying model to endpoint: "; endpoint_name]) ;;
          print "⏳ This may take 5-10 minutes..." ;;
          try_except
            (predictor <- call (ModelDeploy huggingface_model
                                  {| initial_instance_count := Some 1;
                                     instance_type := Some instance_type;
                                     serverless_inference_config := None;
                                     endpoint_name := endpoint_name;
                                     wait := None;
                                     tags := None |}) ;;
             print (fstr [nl; str_repeat "=" 60]) ;;
             print "✅ DEPLOYMENT SUCCESSFUL!" ;;
             print (str_repeat "=" 60) ;;
             print (fstr [nl; "📍 Endpoint Name: "; endpoint_name]) ;;
             region <- call Boto3SessionRegionName ;;
             print (fstr ["🔗 Region: "; str_of_option region]) ;;
             print (fstr ["💰 Instance Type: "; instance_type]) ;;
             print (fstr [nl; "⚙️  Update your backend .env file:"]) ;;
             print (fstr ["   SAGEMAKER_ENDPOINT_NAME="; endpoint_name]) ;;
             region <- call Boto3SessionRegionName ;;
             print (fstr ["   AWS_REGION="; str_of_option region]) ;;
             print (fstr [nl; "🧪 Testing endpoint..."]) ;;
             response <- call (PredictorPredict predictor test_payload) ;;
             emit (EPrintVal "✓ Test response: " response EmptyString) ;;
             print (fstr [nl; "📊 Estimated Cost:"]) ;;
             print (fstr ["   ~$"; get_estimated_cost instance_type; "/hour"]) ;;
             print (fstr [nl; "💡 To delete endpoint later, run:"]) ;;
             print (fstr ["   aws sagemaker delete-endpoint --endpoint-name ";
                          endpoint_name]))
            Exception
            (fun e =>
               print (fstr [nl; "❌ Deployment failed: "; exn_str e]) ;;
               print (fstr [nl; "Troubleshooting:"]) ;;
               print "1. Check AWS credentials are configured" ;;
               print "2. Verify IAM role has correct permissions" ;;
               print "3. Ensure you have SageMaker quota for instance type" ;;
               print "4. Check CloudWatch logs for details")
      end
  end.

(** The [HuggingFaceModel(...)] of [deploy_serverless]: no [env]. *)
Definition deploy_serverless_descriptor (role : string) : HuggingFaceModel :=
  {| model_data := Some [("HF_MODEL_ID", model_id); ("HF_TASK", "conversational")];
     transformers_version := "4.26.0";
     pytorch_version := "1.13.1";
     py_version := "py39";
     role := role;
     env := None |}.

(** Deploy using SageMaker Serverless Inference *)
Definition deploy_serverless (endpoint_name : string) : M unit :=
  print (fstr [nl; str_repeat "=" 60]) ;;
  print "🚀 SageMaker Serverless Deployment" ;;
  print (fstr [str_repeat "=" 60; nl]) ;;
  got <- try_except
           (role <- get_execution_role ;; ret (Some role))
           Exception
           (fun e =>
              print (fstr ["❌ Failed to get execution role: "; exn_str e]) ;;
              ret None) ;;
  match got with
  | None => ret tt
  | Some role =>
      print (fstr [nl; "📦 Preparing serverless deployment..."]) ;;
      try_except
        (call ImportServerlessInferenceConfig ;;
         let huggingface_model := deploy_serverless_descriptor role in
         call (NewHuggingFaceModel huggingface_model) ;;
         let serverless_config :=
           {| memory_size_in_mb := 4096; max_concurrency := 10 |} in
         call (NewServerlessInferenceConfig serverless_config) ;;
         print "🚀 Deploying serverless endpoint..." ;;
         predictor <- call (ModelDeploy huggingface_model
                              {| initial_instance_count := None;
                                 instance_type := None;
                                 serverless_inference_config := Some serverless_config;
                                 endpoint_name := endpoint_name;
                                 wait := None;
                                 tags := None |}) ;;
         print (fstr [nl; "✅ Serverless deployment successful!"]) ;;
         print (fstr ["📍 Endpoint: "; endpoint_name]) ;;
         print (fstr [nl; "💰 Pricing: Pay only for inference time"]) ;;
         print "   No charges when idle!")
        Exception
        (fun e => print (fstr ["❌ Serverless deployment failed: "; exn_str e]))
  end.

(** The body of [for endpoint in response['Endpoints']]. *)
Fixpoint print_endpoints (endpoints : list EndpointSummary) : M unit :=
  match endpoints with
  | [] => ret tt
  | endpoint :: rest =>
      print (fstr ["   Name: "; EndpointName endpoint]) ;;
      print (fstr ["   Status: "; EndpointStatus endpoint]) ;;
      print (fstr ["   Created: "; CreationTime endpoint]) ;;
      print (str_repeat "-" 60) ;;
      print_endpoints rest
  end.

(** List all SageMaker endpoints *)
Definition list_endpoints : M unit :=
  try_except
    (call (Boto3Client "sagemaker") ;;
     endpoints <- call SmListEndpoints ;;
     match endpoints with
     | [] => print "No endpoints found"
     | _ :: _ =>
         print (fstr [nl; "📍 Existing SageMaker Endpoints:"]) ;;
         print (str_repeat "-" 60) ;;
         print_endpoints endpoints
     end)
    Exception
    (fun e => print (fstr ["Error listing endpoints: "; exn_str e])).

(** Delete a SageMaker endpoint *)
Definition delete_endpoint (endpoint_name : string) : M unit :=
  try_except
    (call (Boto3Client "sagemaker") ;;
     print (fstr ["🗑️  Deleting endpoint: "; endpoint_name]) ;;
     call (SmDeleteEndpoint endpoint_name) ;;
     print "✓ Endpoint deleted successfully" ;;
     try_except
       (call (SmDeleteEndpointConfig endpoint_name) ;;
        print "✓ Endpoint config deleted")
       Exception
       (fun _ => ret tt))
    Exception
    (fun e => print (fstr ["Error deleting endpoint: "; exn_str e])).

(** The namespace [parser.parse_args()] returns. *)
Record Args : Type := mkArgs {
  args_instance_type : string;
  args_endpoint_name : string;
  args_serverless : bool;
  args_list : bool;
  args_delete : option string
}.

(** The namespace of an invocation without arguments. *)
Definition default_args : Args :=
  {| args_instance_type := "ml.t2.medium";
     args_endpoint_name := "travel-assistant-endpoint";
     args_serverless := false;
     args_list := false;
     args_delete := None |}.

(** The dispatch under [if __name__ == "__main__"]; [elif args.delete] is
    taken for a name that is neither [None] nor empty. *)
Definition main (args : Args) : M unit :=
  let otherwise :=
    if args_serverless args then deploy_serverless (args_endpoint_name args)
    else deploy_model (args_instance_type args) (args_endpoint_name args) in
  if args_list args then list_endpoints
  else match args_delete args with
       | Some name =>
           if truthy (Some name) then delete_endpoint name else otherwise
       | None => otherwise
       end.

End DeployModel.

(** ** scripts/deploy-sagemaker.py *)

Module Scripts.

(** [v[0]] *)
Definition getitem0 (v : pyval) : Result pyval :=
  match v with
  | PyList (x :: _) => Ok x
  | PyList [] => Raise (mkExn IndexError "list index out of range")
  | PyStr (String c rest) => Ok (PyStr (take_chars 1 (String c rest)))
  | PyStr EmptyString => Raise (mkExn IndexError "string index out of range")
  | PyBytes (String c _) => Ok (PyInt (Z.of_nat (nat_of_ascii c)))
  | PyBytes EmptyString => Raise (mkExn IndexError "index out of range")
  | PyDict _ => Raise (mkExn KeyError "0")
  | _ => Raise (mkExn TypeError
                  (fstr ["'"; type_name v; "' object is not subscriptable"]))
  end.

(** [v.get(key, default)] *)
Definition get (v : pyval) (key : string) (default : pyval) : Result pyval :=
  match v with
  | PyDict d =>
      match dict_get key d with
      | Some x => Ok x
      | None => Ok default
      end
  | _ => Raise (mkExn AttributeError
                  (fstr ["'"; type_name v; "' object has no attribute 'get'"]))
  end.

(** [v[:n]]; a dict refuses a slice as a key. *)
Definition slice_to (n : nat) (v : pyval) : Result pyval :=
  match v with
  | PyStr s => Ok (PyStr (take_chars n s))
  | PyBytes b => Ok (PyBytes (substring 0 n b))
  | PyList l => Ok (PyList (firstn n l))
  | PyDict _ => Raise (mkExn TypeError "unhashable type: 'slice'")
  | _ => Raise (mkExn TypeError
                  (fstr ["'"; type_name v; "' object is not subscriptable"]))
  end.

Definition test_queries : list string :=
  [ "Plan a 3-day itinerary for Paris";
    "What are the best travel tips for Japan?";
    "Recommend activities for a family vacation in Orlando" ].

(** The argument of [predictor.predict] for one query. *)
Definition predict_payload (query : string) : pyval :=
  PyDict [
    ("inputs", PyStr (fstr ["You are a helpful travel assistant. "; query]));
    ("parameters", PyDict [
       ("max_new_tokens", PyInt 200);
       ("temperature", PyFloat "0.7");
       ("top_p", PyFloat "0.9");
       ("do_sample", PyBool true)
     ])
  ].

(** One turn of the loop of [test_model]. *)
Definition test_query (predictor : Predictor) (i : nat) (query : string) : M unit :=
  try_except
    (print (fstr [nl; "🔍 Test "; str_of_nat i; ": "; query]) ;;
     response <- call (PredictorPredict predictor (predict_payload query)) ;;
     first <- lift (getitem0 response) ;;
     generated_text <- lift (get first "generated_text" (PyStr "No response")) ;;
     shown <- lift (slice_to 200 generated_text) ;;
     emit (EPrintVal "✅ Response: " shown "..."))
    Exception
    (fun e => print (fstr ["❌ Test "; str_of_nat i; " failed: "; exn_str e])).

(** [for i, query in enumerate(queries, i)] *)
Fixpoint test_loop (predictor : Predictor) (i : nat) (queries : list string)
    : M unit :=
  match queries with
  | [] => ret tt
  | query :: rest =>
      test_query predictor i query ;;
      test_loop predictor (S i) rest
  end.

(** Test the deployed model with travel-related queries *)
Definition test_model (predictor : Predictor) : M unit :=
  print (fstr [nl; "🧪 Testing deployed model..."]) ;;
  test_loop predictor 1 test_queries.

Definition system_prompt : string :=
  "You are an expert AI travel assistant. Help users plan trips, provide travel advice, and answer travel-related questions with enthusiasm and detailed information.".

Definition travel_model_descriptor (role : string) : HuggingFaceModel :=
  {| model_data := None;
     transformers_version := "4.28";
     pytorch_version := "2.0";
     py_version := "py310";
     role := role;
     env := Some [("HF_MODEL_ID", "microsoft/DialoGPT-large");
                  ("HF_TASK", "text-generation");
                  ("MAX_LENGTH", "1000");
                  ("TEMPERATURE", "0.7");
                  ("TOP_P", "0.9");
                  ("DO_SAMPLE", "true");
                  ("REPETITION_PENALTY", "1.1");
                  ("TRAVEL_CONTEXT", "true");
                  ("SYSTEM_PROMPT", system_prompt)] |}.

Definition travel_deploy_args (serverless_config : ServerlessInferenceConfig)
    : DeployArgs :=
  {| initial_instance_count := None;
     instance_type := None;
     serverless_inference_config := Some serverless_config;
     endpoint_name := "travel-assistant-endpoint";
     wait := Some true;
     tags := Some [ [("Key", "Project"); ("Value", "TravelCompanion")];
                    [("Key", "Environment"); ("Value", "Production")];
                    [("Key", "Model"); ("Value", "DialoGPT-Travel")] ] |}.

(** Deploy a travel-optimized conversational model to SageMaker.  The
    result is the endpoint name, or [None]. *)
Definition deploy_travel_model : M (option string) :=
  print "🚀 Starting SageMaker model deployment for Travel Assistant..." ;;
  got <- try_except
           (call SagemakerSession ;;
            role <- call SagemakerGetExecutionRole ;;
            print (fstr ["✅ Using SageMaker execution role: "; role]) ;;
            ret (Some role))
           Exception
           (fun e =>
              print (fstr ["❌ Error getting SageMaker role: "; exn_str e]) ;;
              print "💡 Make sure you're running this from a SageMaker environment or set the role manually" ;;
              ret None) ;;
  match got with
  | None => ret None
  | Some role =>
      let huggingface_model := travel_model_descriptor role in
      call (NewHuggingFaceModel huggingface_model) ;;
      let serverless_config :=
        {| memory_size_in_mb := 4096; max_concurrency := 10 |} in
      call (NewServerlessInferenceConfig serverless_config) ;;
      try_except
        (print "📦 Deploying model to SageMaker serverless endpoint..." ;;
         print "⏳ This may take 5-10 minutes..." ;;
         predictor <- call (ModelDeploy huggingface_model
                              (travel_deploy_args serverless_config)) ;;
         print "✅ Model deployed successfully!" ;;
         print (fstr ["🔗 Endpoint name: "; predictor_endpoint_name predictor]) ;;
         test_model predictor ;;
         ret (Some (predictor_endpoint_name predictor)))
        Exception
        (fun e =>
           print (fstr ["❌ Deployment failed: "; exn_str e]) ;;
           ret None)
  end.

(** Check the status of a SageMaker endpoint.  The result is the status, or
    [None]. *)
Definition check_endpoint_status (endpoint_name : string) : M (option string) :=
  call (Boto3Client "sagemaker") ;;
  try_except
    (status <- call (SmDescribeEndpoint endpoint_name) ;;
     print (fstr ["📊 Endpoint '"; endpoint_name; "' status: "; status]) ;;
     (if String.eqb status "InService" then
        print "✅ Endpoint is ready for inference!"
      else if String.eqb status "Creating" || String.eqb status "Updating" then
        print "⏳ Endpoint is being deployed..."
      else
        print (fstr ["⚠️ Endpoint status: "; status])) ;;
     ret (Some status))
    isinstance_ClientError
    (fun e =>
       (if contains "ValidationException" (exn_str e) then
          print (fstr ["❌ Endpoint '"; endpoint_name; "' not found"])
        else
          print (fstr ["❌ Error checking endpoint: "; exn_str e])) ;;
       ret None).

(** Delete a SageMaker endpoint (to save costs) *)
Definition cleanup_endpoint (endpoint_name : string) : M unit :=
  call (Boto3Client "sagemaker") ;;
  try_except
    (print (fstr ["🗑️ Deleting endpoint: "; endpoint_name]) ;;
     call (SmDeleteEndpoint endpoint_name) ;;
     print "✅ Endpoint deletion initiated" ;;
     try_except
       (call (SmDeleteEndpointConfig endpoint_name) ;;
        print "✅ Endpoint configuration deleted")
       Exception
       (fun _ => ret tt))
    Exception
    (fun e => print (fstr ["❌ Error deleting endpoint: "; exn_str e])).

Inductive Action : Type := deploy | status | test | cleanup.

Record Args : Type := mkArgs { action : Action; endpoint : string }.

Definition default_args : Args :=
  {| action := deploy; endpoint := "travel-assistant-endpoint" |}.

(** Main deployment function *)
Definition main (args : Args) : M unit :=
  match action args with
  | deploy =>
      endpoint_name <- deploy_travel_model ;;
      if truthy endpoint_name then
        print (fstr [nl; "🎉 Deployment complete!"]) ;;
        print (fstr ["📝 Update your .env file with: SAGEMAKER_ENDPOINT_NAME=";
                     str_of_option endpoint_name])
      else ret tt
  | status =>
      check_endpoint_status (endpoint args) ;; ret tt
  | test =>
      call SagemakerSession ;;
      predictor <- call (NewPredictor (endpoint args)) ;;
      test_model predictor
  | cleanup =>
      cleanup_endpoint (endpoint args)
  end.

End Scripts.

(** ** Observing a run *)

Module Obs.

Definition events {A} (m : M A) (p : Provider) (h : Trace) : Trace := fst (m p h).

Definition result {A} (m : M A) (p : Provider) (h : Trace) : Result A := snd (m p h).

(** The events a view recognises, in order. *)
Definition observe {X} (view : Event -> option X) (t : Trace) : list X :=
  flat_map (fun ev => match view ev with Some x => [x] | None => [] end) t.

Definition printed : Trace -> list string :=
  observe (fun ev => match ev with EPrint line => Some line | _ => None end).

Definition sleeps : Trace -> list Z :=
  observe (fun ev => match ev with ESleep s => Some s | _ => None end).

(** Calls of the role resolver, with their outcome. *)
Inductive IamCall : Type :=
| GetRole (RoleName : string) (r : Result Role)
| CreateRole (RoleName : string) (AssumeRolePolicyDocument : JsonText)
    (Description : string) (r : Result Role)
| AttachRolePolicy (RoleName PolicyArn : string) (r : Result unit).

Definition as_iam (ev : Event) : option IamCall :=
  match ev with
  | ECall c r =>
      match c in Call R return Result R -> option IamCall with
      | IamGetRole n => fun r => Some (GetRole n r)
      | IamCreateRole n d desc => fun r => Some (CreateRole n d desc r)
      | IamAttachRolePolicy n a => fun r => Some (AttachRolePolicy n a r)
      | _ => fun _ => None
      end r
  | _ => None
  end.

Definition iam_calls : Trace -> list IamCall := observe as_iam.

(** Calls on a model or on its predictor. *)
Inductive HostingCall : Type :=
| Deploy (m : HuggingFaceModel) (a : DeployArgs) (r : Result Predictor)
| Predict (pr : Predictor) (payload : pyval) (r : Result pyval).

Definition as_hosting (ev : Event) : option HostingCall :=
  match ev with
  | ECall c r =>
      match c in Call R return Result R -> option HostingCall with
      | ModelDeploy m a => fun r => Some (Deploy m a r)
      | PredictorPredict pr payload => fun r => Some (Predict pr payload r)
      | _ => fun _ => None
      end r
  | _ => None
  end.

Definition hosting_calls : Trace -> list HostingCall := observe as_hosting.

Definition deploy_args (t : Trace) : list DeployArgs :=
  flat_map (fun c => match c with Deploy _ a _ => [a] | _ => [] end)
           (hosting_calls t).

(** Calls of the lifecycle operations on endpoints. *)
Inductive EndpointCall : Type :=
| DescribeEndpoint (name : string) (r : Result string)
| DeleteEndpoint (name : string) (r : Result unit)
| DeleteEndpointConfig (name : string) (r : Result unit).

Definition as_endpoint (ev : Event) : option EndpointCall :=
  match ev with
  | ECall c r =>
      match c in Call R return Result R -> option EndpointCall with
      | SmDescribeEndpoint n => fun r => Some (DescribeEndpoint n r)
      | SmDeleteEndpoint n => fun r => Some (DeleteEndpoint n r)
      | SmDeleteEndpointConfig n => fun r => Some (DeleteEndpointConfig n r)
      | _ => fun _ => None
      end r
  | _ => None
  end.

Definition endpoint_calls : Trace -> list EndpointCall := observe as_endpoint.

(** Acquisition of the execution role in [scripts/deploy-sagemaker.py]:
    the exception, when one of the two calls raised. *)
Definition as_role_failure (ev : Event) : option Exn :=
  match ev with
  | ECall c r =>
      match c in Call R return Result R -> option Exn with
      | SagemakerSession =>
          fun r => match r with Raise e => Some e | Ok _ => None end
      | SagemakerGetExecutionRole =>
          fun r => match r with Raise e => Some e | Ok _ => None end
      | _ => fun _ => None
      end r
  | _ => None
  end.

Definition role_failures : Trace -> list Exn := observe as_role_failure.

(** A call that changes the provider's state. *)
Definition state_changing (ev : Event) : bool :=
  match ev with
  | ECall c _ =>
      match c with
      | IamCreateRole _ _ _ | IamAttachRolePolicy _ _
      | ModelDeploy _ _
      | SmDeleteEndpoint _ | SmDeleteEndpointConfig _ => true
      | _ => false
      end
  | _ => false
  end.

(** A call that raised: the exception, and whether the script handles it
    without a word ([get_role] answering that the role is missing, and the
    deletion of the endpoint configuration). *)
Definition as_failure (ev : Event) : option (bool * Exn) :=
  match ev with
  | ECall c (Raise e) =>
      Some (match c with
            | IamGetRole _ => isinstance_NoSuchEntity e
            | SmDeleteEndpointConfig _ => true
            | _ => false
            end, e)
  | _ => None
  end.

Definition failures : Trace -> list (bool * Exn) := observe as_failure.

(** [Principal.Service] of the first statement of a policy document. *)
Definition principal_service (doc : pyval) : option string :=
  match doc with
  | PyDict d =>
      match dict_get "Statement" d with
      | Some (PyList (PyDict st :: _)) =>
          match dict_get "Principal" st with
          | Some (PyDict pr) =>
              match dict_get "Service" pr with
              | Some (PyStr s) => Some s
              | _ => None
              end
          | _ => None
          end
      | _ => None
      end
  | _ => None
  end.

End Obs.
Import Obs.

(** ** Providers used as concrete inputs *)

Module Mock.

Definition account_role (name : string) : Role :=
  {| Arn := fstr ["arn:aws:iam::123456789012:role/"; name] |}.

Definition reply : pyval :=
  PyList [PyDict [("generated_text", PyStr "Japan is lovely in spring.")]].

(** Every call succeeds. *)
Definition all_ok : Provider :=
  fun R _ c =>
    match c in Call R return Result R with
    | Boto3Client _ => Ok tt
    | Boto3SessionRegionName => Ok (Some "us-east-1")
    | IamGetRole n => Ok (account_role n)
    | IamCreateRole n _ _ => Ok (account_role n)
    | IamAttachRolePolicy _ _ => Ok tt
    | NewHuggingFaceModel _ => Ok tt
    | ImportServerlessInferenceConfig => Ok tt
    | NewServerlessInferenceConfig _ => Ok tt
    | ModelDeploy _ a => Ok {| predictor_endpoint_name := endpoint_name a |}
    | PredictorPredict _ _ => Ok reply
    | SmListEndpoints => Ok []
    | SmDescribeEndpoint _ => Ok "InService"
    | SmDeleteEndpoint _ => Ok tt
    | SmDeleteEndpointConfig _ => Ok tt
    | SagemakerSession => Ok tt
    | SagemakerGetExecutionRole => Ok (Arn (account_role "notebook"))
    | NewPredictor n => Ok {| predictor_endpoint_name := n |}
    end.

Definition no_such_entity : Exn :=
  mkExn NoSuchEntityException
    "An error occurred (NoSuchEntity) when calling the GetRole operation: The role with name SageMakerTravelAssistantRole cannot be found.".

Definition access_denied : Exn :=
  mkExn ClientError
    "An error occurred (AccessDenied) when calling the CreateRole operation: User is not authorized to perform: iam:CreateRole".

Definition endpoint_missing : Exn :=
  mkExn ClientError
    "An error occurred (ValidationException) when calling the DescribeEndpoint operation: Could not find endpoint.".

Definition throttled : Exn :=
  mkExn ClientError
    "An error occurred (ThrottlingException) when calling the DescribeEndpoint operation: Rate exceeded".

Definition cannot_delete : Exn :=
  mkExn ClientError
    "An error occurred (ValidationException) when calling the DeleteEndpoint operation: Could not find endpoint.".

Definition config_missing : Exn :=
  mkExn ClientError
    "An error occurred (ValidationException) when calling the DeleteEndpointConfig operation: Could not find endpoint configuration.".

Definition connection_error : Exn :=
  mkExn OtherException
    "Could not connect to the endpoint URL: https://api.sagemaker.us-east-1.amazonaws.com/".

Definition quota_exceeded : Exn :=
  mkExn ClientError
    "An error occurred (ResourceLimitExceeded) when calling the CreateEndpoint operation: The account-level service limit is 0 Instances.".

Definition no_credentials : Exn :=
  mkExn OtherException "Unable to locate credentials".

(** The role is missing and is created. *)
Definition role_missing : Provider :=
  fun R h c =>
    match c in Call R return Result R with
    | IamGetRole _ => Raise no_such_entity
    | c' => all_ok _ h c'
    end.

(** The role is missing and the caller may not create it. *)
Definition create_denied : Provider :=
  fun R h c =>
    match c in Call R return Result R with
    | IamGetRole _ => Raise no_such_entity
    | IamCreateRole _ _ _ => Raise access_denied
    | c' => all_ok _ h c'
    end.

(** No endpoint and no endpoint configuration exists. *)
Definition no_endpoint : Provider :=
  fun R h c =>
    match c in Call R return Result R with
    | SmDescribeEndpoint _ => Raise endpoint_missing
    | SmDeleteEndpoint _ => Raise cannot_delete
    | SmDeleteEndpointConfig _ => Raise config_missing
    | c' => all_ok _ h c'
    end.

(** The endpoint exists, its configuration is already gone. *)
Definition no_config : Provider :=
  fun R h c =>
    match c in Call R return Result R with
    | SmDeleteEndpointConfig _ => Raise config_missing
    | c' => all_ok _ h c'
    end.

(** The SageMaker API cannot be reached. *)
Definition unreachable : Provider :=
  fun R h c =>
    match c in Call R return Result R with
    | SmDescribeEndpoint _ => Raise connection_error
    | c' => all_ok _ h c'
    end.

(** The describe call is throttled. *)
Definition throttling : Provider :=
  fun R h c =>
    match c in Call R return Result R with
    | SmDescribeEndpoint _ => Raise throttled
    | c' => all_ok _ h c'
    end.

(** The deploy call is refused. *)
Definition no_quota : Provider :=
  fun R h c =>
    match c in Call R return Result R with
    | ModelDeploy _ _ => Raise quota_exceeded
    | c' => all_ok _ h c'
    end.

(** Outside a SageMaker environment there is no execution role. *)
Definition no_notebook : Provider :=
  fun R h c =>
    match c in Call R return Result R with
    | SagemakerGetExecutionRole => Raise no_credentials
    | c' => all_ok _ h c'
    end.

(** The model answers at length. *)
Definition long_reply : pyval :=
  PyList [PyDict [("generated_text", PyStr (str_repeat "Tokyo, Kyoto. " 20))]].

Definition talkative : Provider :=
  fun R h c =>
    match c in Call R return Result R with
    | PredictorPredict _ _ => Ok long_reply
    | c' => all_ok _ h c'
    end.

(** A stateful provider: the first inference request times out, the later
    ones are answered. *)
Definition cold_start : Provider :=
  fun R h c =>
    match c in Call R return Result R with
    | PredictorPredict _ _ =>
        match hosting_calls h with
        | [] | [Deploy _ _ _] => Raise (mkExn OtherException "Read timed out")
        | _ => Ok reply
        end
    | c' => all_ok _ h c'
    end.

End Mock.

(** ** Vocabulary of the properties *)

Module Spec.

Import Scripts.

(** The provider answers the call [c], whatever happened before. *)
Definition answers (p : Provider) {R} (c : Call R) : Prop :=
  forall h, exists a, p R h c = Ok a.

(** The invocation [--endpoint-name demo-ep] of deploy-sagemaker-model.py. *)
Definition demo_args : DeployModel.Args :=
  {| DeployModel.args_instance_type := "ml.t2.medium";
     DeployModel.args_endpoint_name := "demo-ep";
     DeployModel.args_serverless := false;
     DeployModel.args_list := false;
     DeployModel.args_delete := None |}.

(** What a delete operation does with the endpoint [name]: once the
    deletion of the endpoint is accepted, the deletion of the configuration
    of the same name is the next and last call, and whatever its outcome the
    operation returns normally; when the deletion of the endpoint is
    refused, the configuration is left alone, [diagnostic] is printed with
    the exception, and the operation returns normally. *)
Definition deletes_endpoint_then_config (p : Provider) (h : Trace)
    (operation : string -> M unit) (diagnostic : string) : Prop :=
  forall name : string,
    let evs := events (operation name) p h in
    let res := result (operation name) p h in
    (In (DeleteEndpoint name (Ok tt)) (endpoint_calls evs) ->
     exists outcome,
       endpoint_calls evs
       = [DeleteEndpoint name (Ok tt); DeleteEndpointConfig name outcome]
       /\ res = Ok tt)
    /\ (forall e,
          In (DeleteEndpoint name (Raise e)) (endpoint_calls evs) ->
          endpoint_calls evs = [DeleteEndpoint name (Raise e)]
          /\ In (fstr [diagnostic; exn_str e]) (printed evs)
          /\ res = Ok tt)
    /\ (forall e,
          In (DeleteEndpointConfig name (Raise e)) (endpoint_calls evs) ->
          res = Ok tt).


(** [response[0].get('generated_text', 'No response')] *)
Definition generated_text (response : pyval) : Result pyval :=
  match getitem0 response with
  | Ok first => get first "generated_text" (PyStr "No response")
  | Raise e => Raise e
  end.

Definition test_header (i : nat) (query : string) : string :=
  fstr [nl; "🔍 Test "; str_of_nat i; ": "; query].

Definition test_failed (i : nat) (e : Exn) : string :=
  fstr ["❌ Test "; str_of_nat i; " failed: "; exn_str e].

(** [payload['parameters']], when the payload has them. *)
Definition payload_parameters (payload : pyval) : option pyval :=
  match payload with
  | PyDict d => dict_get "parameters" d
  | _ => None
  end.

(** What is printed for prompt [i], given the outcome of its request: the
    first 200 items of the generated text, or the failure of this prompt. *)
Inductive Report (i : nat) : Result pyval -> Event -> Prop :=
| report_response (response text shown : pyval) :
    generated_text response = Ok text ->
    slice_to 200 text = Ok shown ->
    Report i (Ok response) (EPrintVal "✅ Response: " shown "...")
| report_unusable (response : pyval) (e : Exn) :
    generated_text response = Raise e
    \/ (exists text, generated_text response = Ok text
                     /\ slice_to 200 text = Raise e) ->
    Report i (Ok response) (EPrint (test_failed i e))
| report_failure (e : Exn) :
    Report i (Raise e) (EPrint (test_failed i e)).

(** The events of a test of the prompts [queries], numbered from [i]: each
    prompt is announced, sent, and reported, whatever happened to the
    prompts before it. *)
Inductive Tested (predictor : Predictor) : nat -> list string -> Trace -> Prop :=
| tested_nil (i : nat) : Tested predictor i [] []
| tested_cons (i : nat) (query : string) (rest : list string)
    (outcome : Result pyval) (report : Event) (t : Trace) :
    Report i outcome report ->
    Tested predictor (S i) rest t ->
    Tested predictor i (query :: rest)
      (EPrint (test_header i query)
       :: ECall (PredictorPredict predictor (predict_payload query)) outcome
       :: report :: t).

(** The request of each call on a predictor. *)
Definition requests (t : Trace) : list (Predictor * pyval) :=
  flat_map (fun c => match c with
                     | Predict pr payload _ => [(pr, payload)]
                     | Deploy _ _ _ => []
                     end) (hosting_calls t).

(** The line of [main] that suggests the [.env] setting. *)
Definition env_suggestion (endpoint_name : string) : string :=
  fstr ["📝 Update your .env file with: SAGEMAKER_ENDPOINT_NAME="; endpoint_name].

(** The provider lets the role resolver succeed, whatever happened
    before: the role exists, or it can be created. *)
Definition resolves_role (p : Provider) : Prop :=
  forall h, exists arn, result DeployModel.get_execution_role p h = Ok arn.

(** The SDK builds the objects a deployment needs: the model, and for a
    serverless deployment the serverless configuration. *)
Definition builds_models (p : Provider) (serverless : bool) : Prop :=
  (forall m, answers p (NewHuggingFaceModel m))
  /\ (serverless = true ->
      answers p ImportServerlessInferenceConfig
      /\ forall c, answers p (NewServerlessInferenceConfig c)).

(** The hosting arguments an invocation selects. *)
Definition selected_variant (args : DeployModel.Args) : DeployArgs :=
  if DeployModel.args_serverless args then
    {| initial_instance_count := None;
       instance_type := None;
       serverless_inference_config :=
         Some {| memory_size_in_mb := 4096; max_concurrency := 10 |};
       endpoint_name := DeployModel.args_endpoint_name args;
       wait := None;
       tags := None |}
  else
    {| initial_instance_count := Some 1;
       instance_type := Some (DeployModel.args_instance_type args);
       serverless_inference_config := None;
       endpoint_name := DeployModel.args_endpoint_name args;
       wait := None;
       tags := None |}.

(** The provider reports the endpoint [name] as not existing: every
    describe call for it fails with a client error whose text names
    ValidationException. *)
Definition reports_missing (p : Provider) (name : string) : Prop :=
  forall h, exists e,
    p string h (SmDescribeEndpoint name) = Raise e
    /\ isinstance_ClientError e = true
    /\ contains "ValidationException" (exn_str e) = true.

End Spec.
Import Spec.

(** ** Vocabulary of the further properties *)

Module Further.

(** The outcome of each [list_endpoints] call of the provider. *)
Definition listings : Trace -> list (Result (list EndpointSummary)) :=
  observe (fun ev =>
    match ev with
    | ECall c r =>
        match c in Call R
              return Result R -> option (Result (list EndpointSummary)) with
        | SmListEndpoints => fun r => Some r
        | _ => fun _ => None
        end r
    | _ => None
    end).

(** The exception of each SDK object whose construction raised
    ([HuggingFaceModel(...)], [ServerlessInferenceConfig(...)]). *)
Definition construction_failures : Trace -> list Exn :=
  observe (fun ev =>
    match ev with
    | ECall c r =>
        match c in Call R return Result R -> option Exn with
        | NewHuggingFaceModel _ =>
            fun r => match r with Raise e => Some e | Ok _ => None end
        | NewServerlessInferenceConfig _ =>
            fun r => match r with Raise e => Some e | Ok _ => None end
        | _ => fun _ => None
        end r
    | _ => None
    end).

(** The exception of each [boto3.client(...)] that raised. *)
Definition client_failures : Trace -> list Exn :=
  observe (fun ev =>
    match ev with
    | ECall c r =>
        match c in Call R return Result R -> option Exn with
        | Boto3Client _ =>
            fun r => match r with Raise e => Some e | Ok _ => None end
        | _ => fun _ => None
        end r
    | _ => None
    end).

(** The four lines [list_endpoints] prints for one endpoint. *)
Definition endpoint_lines (endpoint : EndpointSummary) : list string :=
  [ fstr ["   Name: "; EndpointName endpoint];
    fstr ["   Status: "; EndpointStatus endpoint];
    fstr ["   Created: "; CreationTime endpoint];
    str_repeat "-" 60 ].

(** Every deploy call of the operation is made for the endpoint [name], on
    a model whose role is the ARN of the execution role that the same run
    found or created. *)
Definition deploys_with_resolved_role (p : Provider) (h : Trace)
    (operation : M unit) (name : string) : Prop :=
  forall m a r,
    In (Deploy m a r) (hosting_calls (events operation p h)) ->
    exists resolved,
      role m = Arn resolved
      /\ endpoint_name a = name
      /\ (In (GetRole DeployModel.role_name (Ok resolved))
             (iam_calls (events operation p h))
          \/ exists document description,
               In (CreateRole DeployModel.role_name document description
                     (Ok resolved))
                  (iam_calls (events operation p h))).

(** The execution role the history shows to exist: the first one a lookup
    found or a creation returned. *)
Definition as_known_role (ev : Event) : option Role :=
  match as_iam ev with
  | Some (GetRole n (Ok role)) =>
      if String.eqb n DeployModel.role_name then Some role else None
  | Some (CreateRole n _ _ (Ok role)) =>
      if String.eqb n DeployModel.role_name then Some role else None
  | _ => None
  end.

Definition known_role (h : Trace) : option Role :=
  hd_error (observe as_known_role h).

(** A provider that keeps its roles: once the history shows the execution
    role, every lookup finds it. *)
Definition keeps_roles (p : Provider) : Prop :=
  forall h role,
    known_role h = Some role ->
    p Role h (IamGetRole DeployModel.role_name) = Ok role.

(** An account without the execution role; a role that was created is
    found from then on. *)
Definition fresh_account : Provider :=
  fun R h c =>
    match c in Call R return Result R with
    | IamGetRole n =>
        match known_role h with
        | Some role => Ok role
        | None => Raise Mock.no_such_entity
        end
    | c' => Mock.all_ok _ h c'
    end.

(** The lookup of the role is refused. *)
Definition lookup_denied : Provider :=
  fun R h c =>
    match c in Call R return Result R with
    | IamGetRole _ => Raise Mock.access_denied
    | c' => Mock.all_ok _ h c'
    end.

(** The endpoint answers no inference request. *)
Definition silent_endpoint : Provider :=
  fun R h c =>
    match c in Call R return Result R with
    | PredictorPredict _ _ => Raise (mkExn OtherException "Read timed out")
    | c' => Mock.all_ok _ h c'
    end.

(** No region is configured, so no client can be created. *)
Definition no_region : Provider :=
  fun R h c =>
    match c in Call R return Result R with
    | Boto3Client _ => Raise (mkExn OtherException "You must specify a region.")
    | c' => Mock.all_ok _ h c'
    end.

(** The model cannot be described to the SDK. *)
Definition bad_model : Provider :=
  fun R h c =>
    match c in Call R return Result R with
    | NewHuggingFaceModel _ =>
        Raise (mkExn OtherException "Unsupported transformers version")
    | c' => Mock.all_ok _ h c'
    end.

(** Two endpoints exist. *)
Definition two_endpoints : list EndpointSummary :=
  [ {| EndpointName := "travel-assistant-endpoint";
       EndpointStatus := "InService";
       CreationTime := "2025-01-10 09:30:00+00:00" |};
    {| EndpointName := "demo-ep";
       EndpointStatus := "Creating";
       CreationTime := "2025-01-11 17:05:12+00:00" |} ].

Definition busy_account : Provider :=
  fun R h c =>
    match c in Call R return Result R with
    | SmListEndpoints => Ok two_endpoints
    | SmDescribeEndpoint _ => Ok "Creating"
    | c' => Mock.all_ok _ h c'
    end.

(** The model answers with a record that has no generated text. *)
Definition wordless : Provider :=
  fun R h c =>
    match c in Call R return Result R with
    | PredictorPredict _ _ => Ok (PyList [PyDict [("score", PyFloat "0.5")]])
    | c' => Mock.all_ok _ h c'
    end.

(** The model answers in Japanese, 300 characters of three bytes each. *)
Definition polyglot : Provider :=
  fun R h c =>
    match c in Call R return Result R with
    | PredictorPredict _ _ =>
        Ok (PyList [PyDict [("generated_text", PyStr (str_repeat "東京" 150))]])
    | c' => Mock.all_ok _ h c'
    end.

End Further.
Import Further.

(** ** Symbolic execution of a program against an arbitrary provider *)

Ltac unfold_prog :=
  cbv [events result bind try_except call print emit ret raise sleep lift
       Exception].

(** Case analysis on the earliest call whose outcome is still unknown.
    The provider is arbitrary, so the history it was given is forgotten
    once the call is settled. *)
Ltac step_call p :=
  match goal with
  | |- context [p ?R ?h ?c] =>
      let E := fresh "E" in
      tryif is_var h then destruct (p R h c) eqn:E
      else (let hv := fresh "h" in
            set (hv := h); clearbody hv; destruct (p R hv c) eqn:E)
  end.

Ltac step_test :=
  match goal with
  | |- context [if ?b then _ else _] =>
      lazymatch b with
      | context [if _ then _ else _] => fail
      | _ => let E := fresh "E" in destruct b eqn:E
      end
  end.

Ltac exec p := unfold_prog; cbn; repeat (first [step_test | step_call p]; cbn).

(** The same on a goal that mentions the run [m p h] several times: the
    statement is folded away while the run is executed. *)
Tactic Notation "exec_run" constr(m) constr(p) constr(h) "unfolding" tactic(unf) :=
  unfold events, result;
  pattern (m p h);
  match goal with
  | |- ?P _ =>
      let Q := fresh "Q" in
      set (Q := P); unf; exec p; subst Q; cbv beta
  end.

Lemma observe_app {X} (view : Event -> option X) (t1 t2 : Trace) :
  observe view (t1 ++ t2) = observe view t1 ++ observe view t2.
Proof. unfold observe. apply flat_map_app. Qed.

(** Membership in the concrete list of calls of a run. *)
Ltac pick Hin :=
  repeat (destruct Hin as [Hin|Hin]; [try discriminate Hin|]);
  try contradiction.

(** ** The role resolver *)

Section RoleResolver.

Import DeployModel.

Variable p : Provider.
Variable h : Trace.

(** C6.  When the lookup of the role succeeds, the resolver returns the ARN
    of the role it found, and the lookup is its only IAM call: it has issued
    no create-role call, no attach-policy call and no other state-changing
    call. *)
Theorem get_execution_role_reuses_existing_role (role : Role) :
  let evs := events get_execution_role p h in
  In (GetRole role_name (Ok role)) (iam_calls evs) ->
  result get_execution_role p h = Ok (Arn role)
  /\ iam_calls evs = [GetRole role_name (Ok role)]
  /\ existsb state_changing evs = false.
Proof.
  intros evs. subst evs.
  exec_run get_execution_role p h unfolding (unfold get_execution_role).
  all: intros Hin; pick Hin.
  all: inversion Hin; subst; repeat split; reflexivity.
Qed.

(** C1, as the code has it.  When the lookup signals that the role is
    missing, exactly one create-role call follows, with the trust policy
    whose principal is sagemaker.amazonaws.com.  If it succeeds the managed
    policy AmazonSageMakerFullAccess is attached exactly once; if that
    succeeds too the resolver sleeps ten seconds and returns the ARN of the
    created role.  A failure of either call is announced with the four
    lines of advice and then raised to the caller, and the later steps are
    not taken. *)
Theorem get_execution_role_creates_missing_role (e : Exn) :
  let evs := events get_execution_role p h in
  let res := result get_execution_role p h in
  let create := CreateRole role_name (json_dumps trust_policy)
                  "Execution role for Travel Assistant SageMaker endpoint" in
  let attach := AttachRolePolicy role_name
                  "arn:aws:iam::aws:policy/AmazonSageMakerFullAccess" in
  let advice := fun e' : Exn =>
    [fstr ["Error with IAM role: "; exn_str e'];
     fstr [nl; "Please manually create a SageMaker execution role with:"];
     "1. Trust policy for sagemaker.amazonaws.com";
     "2. AmazonSageMakerFullAccess policy attached"] in
  In (GetRole role_name (Raise e)) (iam_calls evs) ->
  isinstance_NoSuchEntity e = true ->
  principal_service trust_policy = Some "sagemaker.amazonaws.com"
  /\ ((exists role,
         iam_calls evs = [GetRole role_name (Raise e); create (Ok role);
                          attach (Ok tt)]
         /\ sleeps evs = [10]
         /\ printed evs
            = ["Creating new IAM role: SageMakerTravelAssistantRole";
               "Waiting for role to propagate...";
               fstr ["✓ Created role: "; Arn role]]
         /\ res = Ok (Arn role))
      \/ (exists role e2,
            iam_calls evs = [GetRole role_name (Raise e); create (Ok role);
                             attach (Raise e2)]
            /\ sleeps evs = []
            /\ printed evs
               = "Creating new IAM role: SageMakerTravelAssistantRole"
                 :: advice e2
            /\ res = Raise e2)
      \/ (exists e1,
            iam_calls evs = [GetRole role_name (Raise e); create (Raise e1)]
            /\ sleeps evs = []
            /\ printed evs
               = "Creating new IAM role: SageMakerTravelAssistantRole"
                 :: advice e1
            /\ res = Raise e1)).
Proof.
  intros evs res create attach advice. subst evs res create attach advice.
  exec_run get_execution_role p h unfolding (unfold get_execution_role).
  all: intros Hin He; split; [reflexivity|]; pick Hin.
  all: inversion Hin; subst; try congruence.
  all: repeat match goal with u : unit |- _ => destruct u end.
  - left. eexists. repeat split.
  - right. left. do 2 eexists. repeat split.
  - right. right. eexists. repeat split.
Qed.

End RoleResolver.

(** ** Dispatch and hosting variant of deploy-sagemaker-model.py *)

Section Dispatch.

Import DeployModel.

Arguments get_estimated_cost : simpl never.

Variable p : Provider.
Variable h : Trace.

(** The loop of [list_endpoints] only prints. *)
Lemma print_endpoints_prints (endpoints : list EndpointSummary) (h' : Trace) :
  exists lines, print_endpoints endpoints p h' = (map EPrint lines, Ok tt).
Proof.
  revert h'. induction endpoints as [|endpoint rest IH]; intros h'.
  - exists []. reflexivity.
  - cbn [print_endpoints]. unfold_prog. cbn.
    match goal with
    | |- context [print_endpoints rest p ?h2] => destruct (IH h2) as [lines ->]
    end.
    eexists (_ :: _ :: _ :: _ :: lines). reflexivity.
Qed.

Lemma hosting_calls_prints (lines : list string) :
  hosting_calls (map EPrint lines) = [].
Proof. induction lines; [reflexivity | assumption]. Qed.


Lemma list_endpoints_deploys_nothing :
  hosting_calls (events list_endpoints p h) = [].
Proof.
  unfold list_endpoints. exec p; try reflexivity.
  match goal with
  | l : list EndpointSummary |- _ => destruct l
  end; cbn; try reflexivity.
  match goal with
  | |- context [print_endpoints ?l p ?h2] =>
      destruct (print_endpoints_prints l h2) as [lines ->]
  end.
  cbn. apply hosting_calls_prints.
Qed.

Lemma delete_endpoint_deploys_nothing (name : string) :
  hosting_calls (events (delete_endpoint name) p h) = [].
Proof. unfold delete_endpoint. exec p; reflexivity. Qed.

Lemma get_execution_role_hosts_nothing (h' : Trace) :
  hosting_calls (events get_execution_role p h') = [].
Proof.
  exec_run get_execution_role p h' unfolding (unfold get_execution_role).
  all: reflexivity.
Qed.

Arguments get_execution_role : simpl never.

(** Settles the resolver inside a run on a provider that lets it succeed:
    it returns an ARN, and its events hold no call on a model. *)
Ltac settle_resolver Hresolves :=
  match goal with
  | |- context [get_execution_role p ?h'] =>
      let arn := fresh "arn" in
      let Harn := fresh "Harn" in
      let t := fresh "t" in
      let Ht := fresh "Ht" in
      destruct (Hresolves h') as [arn Harn];
      pose proof (get_execution_role_hosts_nothing h') as Ht;
      unfold result, events in Harn, Ht;
      destruct (get_execution_role p h') as [t ?r];
      cbn [fst snd] in Harn, Ht; subst; cbn
  end.

Ltac absurd_answer :=
  match goal with
  | E : p ?R ?h' ?c = Raise _, H : answers p ?c |- _ =>
      destruct (H h') as [? Hok]; rewrite Hok in E; discriminate E
  | E : p ?R ?h' (NewHuggingFaceModel ?m) = Raise _,
    H : forall m, answers p (NewHuggingFaceModel m) |- _ =>
      destruct (H m h') as [? Hok]; rewrite Hok in E; discriminate E
  | E : p ?R ?h' (NewServerlessInferenceConfig ?m) = Raise _,
    H : forall m, answers p (NewServerlessInferenceConfig m) |- _ =>
      destruct (H m h') as [? Hok]; rewrite Hok in E; discriminate E
  | E : p ?R ?h' (ModelDeploy ?m ?a) = Raise _,
    H : forall m a, answers p (ModelDeploy m a) |- _ =>
      destruct (H m a h') as [? Hok]; rewrite Hok in E; discriminate E
  end.

(** Runs a deployer whose resolver is settled by [Hresolves]. *)
Ltac exec_deployer m Hresolves unf :=
  unfold events; pattern (m p h);
  match goal with
  | |- ?P _ =>
      let Q := fresh "Q" in
      set (Q := P); unf; unfold_prog; cbn;
      settle_resolver Hresolves;
      repeat (first [step_test | step_call p]; cbn);
      subst Q; cbv beta
  end.

Ltac settle_trace Ht :=
  cbn [fst snd];
  unfold requests, deploy_args, hosting_calls, observe in Ht |- *;
  cbn [flat_map app]; rewrite ?flat_map_app, ?Ht; cbn.

(** Once the role is resolved and the model is built, [deploy_model] issues
    its deploy call. *)
Lemma deploy_model_deploy_args (it name : string) :
  resolves_role p ->
  (forall m, answers p (NewHuggingFaceModel m)) ->
  deploy_args (events (deploy_model it name) p h)
  = [{| initial_instance_count := Some 1;
        instance_type := Some it;
        serverless_inference_config := None;
        endpoint_name := name;
        wait := None;
        tags := None |}].
Proof.
  intros Hresolves Hmodel.
  exec_deployer (deploy_model it name) Hresolves ltac:(unfold deploy_model).
  all: try absurd_answer.
  all: settle_trace Ht; reflexivity.
Qed.

Lemma deploy_serverless_deploy_args (name : string) :
  resolves_role p ->
  builds_models p true ->
  deploy_args (events (deploy_serverless name) p h)
  = [{| initial_instance_count := None;
        instance_type := None;
        serverless_inference_config :=
          Some {| memory_size_in_mb := 4096; max_concurrency := 10 |};
        endpoint_name := name;
        wait := None;
        tags := None |}].
Proof.
  intros Hresolves [Hmodel Hserverless].
  destruct (Hserverless eq_refl) as [Himport Hconfig].
  exec_deployer (deploy_serverless name) Hresolves ltac:(unfold deploy_serverless).
  all: try absurd_answer.
  all: settle_trace Ht; reflexivity.
Qed.

(** Once the endpoint is deployed, [deploy_model] sends its one request. *)
Lemma deploy_model_requests (it name : string) :
  resolves_role p ->
  (forall m, answers p (NewHuggingFaceModel m)) ->
  (forall m a, answers p (ModelDeploy m a)) ->
  answers p Boto3SessionRegionName ->
  exists pr, requests (events (deploy_model it name) p h) = [(pr, test_payload)].
Proof.
  intros Hresolves Hmodel Hdeploy Hregion.
  exec_deployer (deploy_model it name) Hresolves ltac:(unfold deploy_model).
  all: try absurd_answer.
  all: eexists; settle_trace Ht; reflexivity.
Qed.

(** C2.  Every deploy call of an invocation with [--serverless] carries the
    serverless configuration (memory size in MB, maximal concurrency) and
    neither an instance type nor an instance count; every deploy call of an
    invocation without the flag carries the instance type and the instance
    count and no serverless configuration.  And the call is made: an
    invocation that neither lists nor deletes, on a provider that resolves
    the role and builds the model, issues exactly one deploy call, with the
    variant its flag selects. *)
Theorem main_deploys_the_selected_variant (args : Args) :
  (forall a : DeployArgs,
     In a (deploy_args (events (main args) p h)) ->
     if args_serverless args then
       serverless_inference_config a
       = Some {| memory_size_in_mb := 4096; max_concurrency := 10 |}
       /\ instance_type a = None
       /\ initial_instance_count a = None
     else
       instance_type a = Some (args_instance_type args)
       /\ initial_instance_count a = Some 1
       /\ serverless_inference_config a = None)
  /\ (args_list args = false ->
      truthy (args_delete args) = false ->
      resolves_role p ->
      builds_models p (args_serverless args) ->
      deploy_args (events (main args) p h) = [selected_variant args]).
Proof.
  destruct args as [it name serverless list del].
  unfold main, selected_variant. cbn [args_list args_delete args_serverless
    args_instance_type args_endpoint_name].
  split.
  - intros a. unfold deploy_args. destruct list.
    { rewrite list_endpoints_deploys_nothing. intros []. }
    assert (Hrest :
      In a (flat_map (fun c => match c with Deploy _ a0 _ => [a0] | _ => [] end)
              (hosting_calls
                 (events (if serverless then deploy_serverless name
                          else deploy_model it name) p h))) ->
      if serverless then
        serverless_inference_config a
        = Some {| memory_size_in_mb := 4096; max_concurrency := 10 |}
        /\ instance_type a = None /\ initial_instance_count a = None
      else
        instance_type a = Some it /\ initial_instance_count a = Some 1
        /\ serverless_inference_config a = None).
    { destruct serverless.
      - unfold deploy_serverless, get_execution_role. exec p.
        all: cbn; intros Hin;
          repeat (destruct Hin as [Hin|Hin]; [subst a; cbn; auto|]);
          try contradiction.
      - unfold deploy_model, get_execution_role. exec p.
        all: cbn; intros Hin;
          repeat (destruct Hin as [Hin|Hin]; [subst a; cbn; auto|]);
          try contradiction. }
    destruct del as [target|]; [|exact Hrest].
    destruct (truthy (Some target)); [|exact Hrest].
    rewrite delete_endpoint_deploys_nothing. intros [].
  - intros -> Hdelete Hresolves Hbuilds.
    assert (Hrest :
      deploy_args
        (events (if serverless then deploy_serverless name
                 else deploy_model it name) p h)
      = [if serverless then
           {| initial_instance_count := None;
              instance_type := None;
              serverless_inference_config :=
                Some {| memory_size_in_mb := 4096; max_concurrency := 10 |};
              endpoint_name := name;
              wait := None;
              tags := None |}
         else
           {| initial_instance_count := Some 1;
              instance_type := Some it;
              serverless_inference_config := None;
              endpoint_name := name;
              wait := None;
              tags := None |}]).
    { destruct serverless.
      - apply deploy_serverless_deploy_args; assumption.
      - apply deploy_model_deploy_args; [assumption | exact (proj1 Hbuilds)]. }
    destruct del as [target|]; [|exact Hrest].
    rewrite Hdelete. exact Hrest.
Qed.

Ltac absurd_call :=
  match goal with
  | E : p ?R ?h' ?c = Raise _, H : answers p ?c |- _ =>
      destruct (H h') as [? Hok]; rewrite Hok in E; discriminate E
  | E : p ?R ?h' (NewHuggingFaceModel ?m) = Raise _,
    H : forall m, answers p (NewHuggingFaceModel m) |- _ =>
      destruct (H m h') as [? Hok]; rewrite Hok in E; discriminate E
  | E : p ?R ?h' (ModelDeploy ?m ?a) = Raise _,
    H : forall m a, answers p (ModelDeploy m a) |- _ =>
      destruct (H m a h') as [? Hok]; rewrite Hok in E; discriminate E
  end.

(** C4.  Against a provider on which the role exists and the calls of the
    deployment succeed, the invocation with endpoint name demo-ep builds the
    descriptor of facebook/blenderbot-400M-distill, issues one deploy call
    with endpoint name demo-ep, instance type ml.t2.medium and instance
    count 1, and once the predictor is returned sends exactly one inference
    request, whose payload is the single input
    [Hello! I want to plan a trip to Japan.] *)
Theorem deploy_demo_endpoint :
  answers p (Boto3Client "iam") ->
  answers p (IamGetRole role_name) ->
  (forall m, answers p (NewHuggingFaceModel m)) ->
  (forall m a, answers p (ModelDeploy m a)) ->
  answers p Boto3SessionRegionName ->
  exists role predictor reply,
    iam_calls (events (main demo_args) p h) = [GetRole role_name (Ok role)]
    /\ hosting_calls (events (main demo_args) p h)
       = [Deploy (deploy_model_descriptor (Arn role))
            {| initial_instance_count := Some 1;
               instance_type := Some "ml.t2.medium";
               serverless_inference_config := None;
               endpoint_name := "demo-ep";
               wait := None;
               tags := None |}
            (Ok predictor);
          Predict predictor
            (PyDict [("inputs", PyStr "Hello! I want to plan a trip to Japan.")])
            reply]
    /\ model_data (deploy_model_descriptor (Arn role))
       = Some [("HF_MODEL_ID", "facebook/blenderbot-400M-distill");
               ("HF_TASK", "conversational")]
    /\ option_map (dict_get "HF_MODEL_ID")
         (env (deploy_model_descriptor (Arn role)))
       = Some (Some "facebook/blenderbot-400M-distill").
Proof.
  intros Hclient Hrole Hmodel Hdeploy Hregion.
  unfold main, demo_args. cbn [args_list args_delete args_serverless
    args_instance_type args_endpoint_name].
  exec_run (deploy_model "ml.t2.medium" "demo-ep") p h
    unfolding (unfold deploy_model, get_execution_role).
  all: try absurd_call.
  all: do 3 eexists; repeat split.
Qed.

End Dispatch.

(** ** Lifecycle operations *)

Section Lifecycle.

Variable p : Provider.
Variable h : Trace.

(** C5.  When the describe call fails with the provider's answer for an
    endpoint that does not exist (a client error whose text names
    ValidationException), the status operation prints the line saying that
    the endpoint was not found, and nothing else; that line differs from the
    generic error line of any exception.  And the provider is asked: on a
    provider that hands out the client and reports the endpoint as not
    existing, the status operation issues the describe call for that
    endpoint, prints the not-found line alone and returns [None]. *)
Theorem check_endpoint_status_reports_missing_endpoint (endpoint_name : string) :
  let evs := events (Scripts.check_endpoint_status endpoint_name) p h in
  let not_found := fstr ["❌ Endpoint '"; endpoint_name; "' not found"] in
  (forall e,
     In (DescribeEndpoint endpoint_name (Raise e)) (endpoint_calls evs) ->
     isinstance_ClientError e = true ->
     contains "ValidationException" (exn_str e) = true ->
     printed evs = [not_found])
  /\ (forall e' : Exn,
        not_found <> fstr ["❌ Error checking endpoint: "; exn_str e'])
  /\ (answers p (Boto3Client "sagemaker") ->
      reports_missing p endpoint_name ->
      exists e,
        endpoint_calls evs = [DescribeEndpoint endpoint_name (Raise e)]
        /\ printed evs = [not_found]
        /\ result (Scripts.check_endpoint_status endpoint_name) p h = Ok None).
Proof.
  intros evs not_found. subst evs not_found. split; [|split].
  - intros e.
    exec_run (Scripts.check_endpoint_status endpoint_name) p h
      unfolding (unfold Scripts.check_endpoint_status).
    all: intros Hin Hclient Hvalidation; pick Hin.
    all: inversion Hin; subst; try congruence.
    reflexivity.
  - intros e' Heq. discriminate Heq.
  - intros Hclient Hmissing.
    unfold events, result, Scripts.check_endpoint_status. unfold_prog.
    destruct (Hclient h) as [a ->]. cbn.
    match goal with
    | |- context [p string ?h' (SmDescribeEndpoint endpoint_name)] =>
        destruct (Hmissing h') as (e & -> & Hclass & Hvalidation)
    end.
    cbn. rewrite Hclass. cbn. rewrite Hvalidation. cbn.
    exists e. repeat split.
Qed.

(** C9.  The status operation returns the status the provider reported
    whenever the describe call succeeds, and returns [None] whenever the
    describe call raises a client error, be it for a missing endpoint or for
    anything else; such an error never reaches the caller. *)
Theorem check_endpoint_status_result (endpoint_name : string) :
  let evs := events (Scripts.check_endpoint_status endpoint_name) p h in
  let res := result (Scripts.check_endpoint_status endpoint_name) p h in
  (forall status,
     In (DescribeEndpoint endpoint_name (Ok status)) (endpoint_calls evs) ->
     res = Ok (Some status))
  /\ (forall e,
        In (DescribeEndpoint endpoint_name (Raise e)) (endpoint_calls evs) ->
        isinstance_ClientError e = true ->
        res = Ok None).
Proof.
  intros evs res. subst evs res.
  exec_run (Scripts.check_endpoint_status endpoint_name) p h
    unfolding (unfold Scripts.check_endpoint_status).
  all: split; [intros status Hin | intros e' Hin Hclient].
  all: pick Hin.
  all: inversion Hin; subst; try congruence; reflexivity.
Qed.

(** C3, as the code has it, for [delete_endpoint] and [cleanup_endpoint]:
    once the deletion of the endpoint is accepted, the deletion of the
    configuration of the same name is attempted, and its failure is not
    raised to the caller; when the deletion of the endpoint is refused the
    configuration is not touched. *)
Theorem delete_attempts_config_after_endpoint :
  deletes_endpoint_then_config p h DeployModel.delete_endpoint
    "Error deleting endpoint: "
  /\ deletes_endpoint_then_config p h Scripts.cleanup_endpoint
       "❌ Error deleting endpoint: ".
Proof.
  split; intros name evs res; subst evs res.
  - exec_run (DeployModel.delete_endpoint name) p h
      unfolding (unfold DeployModel.delete_endpoint).
    all: repeat match goal with u : unit |- _ => destruct u end.
    all: (split; [|split]); [intros Hin | intros e' Hin | intros e' Hin].
    all: pick Hin.
    all: try (inversion Hin; subst).
    all: try (eexists; split; reflexivity).
    all: try reflexivity.
    all: cbn; auto.
  - exec_run (Scripts.cleanup_endpoint name) p h
      unfolding (unfold Scripts.cleanup_endpoint).
    all: repeat match goal with u : unit |- _ => destruct u end.
    all: (split; [|split]); [intros Hin | intros e' Hin | intros e' Hin].
    all: pick Hin.
    all: try (inversion Hin; subst).
    all: try (eexists; split; reflexivity).
    all: try reflexivity.
    all: cbn; auto.
Qed.

End Lifecycle.

(** ** The smoke tester *)

Section SmokeTest.

Import Scripts.

Arguments DeployModel.get_estimated_cost : simpl never.

Variable p : Provider.

Lemma test_query_spec (predictor : Predictor) (i : nat) (query : string)
    (h : Trace) :
  exists outcome report,
    test_query predictor i query p h
    = ([EPrint (test_header i query);
        ECall (PredictorPredict predictor (predict_payload query)) outcome;
        report], Ok tt)
    /\ Report i outcome report.
Proof.
  unfold test_query. unfold_prog.
  match goal with
  | |- context [p ?R ?h' ?c] => destruct (p R h' c) as [response|e]
  end.
  - destruct (getitem0 response) as [first|e] eqn:Hfirst.
    + destruct (get first "generated_text" (PyStr "No response"))
        as [text|e] eqn:Htext.
      * destruct (slice_to 200 text) as [shown|e] eqn:Hshown.
        -- do 2 eexists. split; [reflexivity|].
           apply report_response with (text := text); [|exact Hshown].
           unfold generated_text. rewrite Hfirst. exact Htext.
        -- do 2 eexists. split; [reflexivity|].
           apply report_unusable. right. exists text. split; [|exact Hshown].
           unfold generated_text. rewrite Hfirst. exact Htext.
      * do 2 eexists. split; [reflexivity|].
        apply report_unusable. left.
        unfold generated_text. rewrite Hfirst. exact Htext.
    + do 2 eexists. split; [reflexivity|].
      apply report_unusable. left.
      unfold generated_text. rewrite Hfirst. reflexivity.
  - do 2 eexists. split; [reflexivity|]. apply report_failure.
Qed.

Lemma test_loop_spec (predictor : Predictor) (queries : list string) :
  forall (i : nat) (h : Trace),
  exists t, test_loop predictor i queries p h = (t, Ok tt)
            /\ Tested predictor i queries t.
Proof.
  induction queries as [|query rest IH]; intros i h.
  - exists []. split; [reflexivity | constructor].
  - cbn [test_loop]. unfold bind at 1.
    destruct (test_query_spec predictor i query h)
      as (outcome & report & -> & Hreport).
    match goal with
    | |- context [test_loop predictor (S i) rest p ?h'] =>
        destruct (IH (S i) h') as (t & -> & Ht)
    end.
    eexists. split; [reflexivity|].
    cbn. constructor; assumption.
Qed.

Lemma test_model_spec (predictor : Predictor) (h : Trace) :
  exists t,
    test_model predictor p h
    = (EPrint (fstr [nl; "🧪 Testing deployed model..."]) :: t, Ok tt)
    /\ Tested predictor 1 test_queries t.
Proof.
  unfold test_model. unfold bind at 1. cbn [print emit].
  match goal with
  | |- context [test_loop predictor 1 test_queries p ?h'] =>
      destruct (test_loop_spec predictor test_queries 1 h') as (t & -> & Ht)
  end.
  exists t. split; [reflexivity | exact Ht].
Qed.

(** The requests of a test, in order. *)
Lemma Tested_requests {predictor : Predictor} {i : nat} {queries : list string}
    {t : Trace} :
  Tested predictor i queries t ->
  requests t = map (fun query => (predictor, predict_payload query)) queries.
Proof.
  induction 1 as [|i query rest outcome report t Hreport _ IH].
  - reflexivity.
  - change (requests _) with
      ((predictor, predict_payload query) :: requests (report :: t)).
    cbn [map]. f_equal.
    destruct Hreport; exact IH.
Qed.

(** No line of a test starts like the line that suggests the [.env]
    setting. *)
Lemma Tested_lines {predictor : Predictor} {i : nat} {queries : list string}
    {t : Trace} :
  Tested predictor i queries t ->
  forall line, In line (printed t) -> String.prefix "📝" line = false.
Proof.
  induction 1 as [|i query rest outcome report t Hreport _ IH];
    intros line Hin.
  - contradiction.
  - destruct Hin as [<-|Hin]; [reflexivity|].
    destruct Hreport; cbn in Hin.
    + exact (IH line Hin).
    + destruct Hin as [<-|Hin]; [reflexivity | exact (IH line Hin)].
    + destruct Hin as [<-|Hin]; [reflexivity | exact (IH line Hin)].
Qed.

(** A test deploys nothing and acquires no role. *)
Lemma Tested_calls {predictor : Predictor} {i : nat} {queries : list string}
    {t : Trace} :
  Tested predictor i queries t ->
  (forall m a r, ~ In (Deploy m a r) (hosting_calls t))
  /\ role_failures t = [].
Proof.
  induction 1 as [|i query rest outcome report t Hreport _ [IHd IHr]].
  - split; [intros m a r [] | reflexivity].
  - split.
    + intros m a r [Hin|Hin]; [discriminate Hin|].
      destruct Hreport; exact (IHd m a r Hin).
    + destruct outcome, Hreport; exact IHr.
Qed.

(** A text is cut to its first [n] characters, whatever the number of
    bytes of each; a text of at most [n] characters is left whole. *)
Lemma slice_to_text (n : nat) (s : string) :
  slice_to n (PyStr s) = Ok (PyStr (take_chars n s))
  /\ (char_count (take_chars n s) <= n)%nat
  /\ String.prefix (take_chars n s) s = true
  /\ ((char_count s <= n)%nat -> take_chars n s = s).
Proof.
  split; [reflexivity|]. split; [|split].
  - revert n. induction s as [|c s IH]; intros n; cbn [take_chars char_count];
      [lia|].
    destruct (is_continuation c) eqn:E.
    + cbn [char_count]. rewrite E. apply IH.
    + destruct n as [|k]; cbn [char_count]; [lia|].
      rewrite E. specialize (IH k). lia.
  - revert n. induction s as [|c s IH]; intros n; cbn [take_chars];
      [reflexivity|].
    destruct (is_continuation c); [|destruct n as [|k]; [reflexivity|]];
      cbn [String.prefix];
      (destruct (ascii_dec c c) as [_|Hne]; [apply IH | contradiction]).
  - revert n. induction s as [|c s IH]; intros n; cbn [take_chars char_count];
      [reflexivity|].
    destruct (is_continuation c).
    + intros Hle. f_equal. apply IH. exact Hle.
    + destruct n as [|k]; [lia|]. intros Hle. f_equal. apply IH. lia.
Qed.

Variable h : Trace.

(** C7, as the code has it.  [test_model] sends one request for every
    prompt of its fixed list, in order and whatever happened to the earlier
    prompts; each request carries the generation parameters; a reply is
    printed cut to its first 200 characters, a failure is printed for its
    prompt alone, and nothing is raised to the caller.  The smoke test of
    [deploy_model] is of another kind: it sends a single request, which
    holds the inputs field and no parameters, and prints the reply as it
    came. *)
Theorem test_model_tries_every_prompt (predictor : Predictor) :
  (exists t,
     events (test_model predictor) p h
     = EPrint (fstr [nl; "🧪 Testing deployed model..."]) :: t
     /\ Tested predictor 1 test_queries t)
  /\ result (test_model predictor) p h = Ok tt
  /\ requests (events (test_model predictor) p h)
     = map (fun query => (predictor, predict_payload query)) test_queries
  /\ (forall query,
        payload_parameters (predict_payload query)
        = Some (PyDict [("max_new_tokens", PyInt 200);
                        ("temperature", PyFloat "0.7");
                        ("top_p", PyFloat "0.9");
                        ("do_sample", PyBool true)]))
  /\ (forall s,
        slice_to 200 (PyStr s) = Ok (PyStr (take_chars 200 s))
        /\ (char_count (take_chars 200 s) <= 200)%nat
        /\ String.prefix (take_chars 200 s) s = true
        /\ ((char_count s <= 200)%nat -> take_chars 200 s = s))
  /\ (forall instance_type endpoint_name pr payload,
        In (pr, payload)
           (requests
              (events (DeployModel.deploy_model instance_type endpoint_name) p h)) ->
        payload = PyDict [("inputs", PyStr "Hello! I want to plan a trip to Japan.")]
        /\ payload_parameters payload = None)
  /\ (forall instance_type endpoint_name pr payload response,
        In (Predict pr payload (Ok response))
           (hosting_calls
              (events (DeployModel.deploy_model instance_type endpoint_name) p h)) ->
        requests
          (events (DeployModel.deploy_model instance_type endpoint_name) p h)
        = [(pr, payload)]
        /\ In (EPrintVal "✓ Test response: " response EmptyString)
              (events (DeployModel.deploy_model instance_type endpoint_name) p h))
  /\ (forall instance_type endpoint_name,
        resolves_role p ->
        (forall m, answers p (NewHuggingFaceModel m)) ->
        (forall m a, answers p (ModelDeploy m a)) ->
        answers p Boto3SessionRegionName ->
        exists pr,
          requests
            (events (DeployModel.deploy_model instance_type endpoint_name) p h)
          = [(pr, PyDict [("inputs",
                           PyStr "Hello! I want to plan a trip to Japan.")])]).
Proof.
  destruct (test_model_spec predictor h) as (t & Hrun & Ht).
  unfold events at 1 2, result. rewrite Hrun. cbn [fst snd].
  split; [exists t; split; [reflexivity | exact Ht]|].
  split; [reflexivity|].
  split; [exact (Tested_requests Ht)|].
  split; [reflexivity|].
  split; [intros s; apply slice_to_text|].
  split; [|split].
  - intros instance_type endpoint_name pr payload.
    exec_run (DeployModel.deploy_model instance_type endpoint_name) p h
      unfolding (unfold DeployModel.deploy_model, DeployModel.get_execution_role).
    all: intros Hin; pick Hin.
    all: inversion Hin; subst; split; reflexivity.
  - intros instance_type endpoint_name pr payload response.
    exec_run (DeployModel.deploy_model instance_type endpoint_name) p h
      unfolding (unfold DeployModel.deploy_model, DeployModel.get_execution_role).
    all: intros Hin; pick Hin.
    all: inversion Hin; subst; split; [reflexivity|].
    all: cbn; repeat (first [left; reflexivity | right]).
  - intros instance_type endpoint_name.
    apply deploy_model_requests.
Qed.

End SmokeTest.

(** ** Deployment of the travel model *)

Section TravelDeployment.

Import Scripts.

Arguments test_model : simpl never.

Variable p : Provider.
Variable h : Trace.

(** Settles the smoke test inside a run: it returns, and its events are
    those of a test. *)
Ltac settle_test_model :=
  match goal with
  | |- context [test_model ?pr p ?h'] =>
      let t := fresh "t" in
      let Hrun := fresh "Hrun" in
      let Ht := fresh "Ht" in
      destruct (test_model_spec p pr h') as (t & Hrun & Ht);
      rewrite Hrun; clear Hrun; cbn
  end.

Lemma deploy_travel_model_lines (line : string) :
  In line (printed (events deploy_travel_model p h)) ->
  String.prefix "📝" line = false.
Proof.
  exec_run deploy_travel_model p h unfolding (unfold deploy_travel_model).
  all: try settle_test_model.
  all: intros Hin.
  all: repeat (destruct Hin as [<-|Hin]; [reflexivity|]); try contradiction.
  change (In line (printed (t ++ []))) in Hin.
  rewrite app_nil_r in Hin. exact (Tested_lines Ht line Hin).
Qed.

(** C10.  [deploy_travel_model] returns the name of the deployed endpoint
    when the deploy call succeeds; it returns [None] when acquiring the
    execution role fails and when the deploy call raises; [main] prints the
    [.env] suggestion only when the value returned is not [None]. *)
Theorem deploy_travel_model_result (endpoint : string) :
  let evs := events deploy_travel_model p h in
  let res := result deploy_travel_model p h in
  (forall m a predictor,
     In (Deploy m a (Ok predictor)) (hosting_calls evs) ->
     res = Ok (Some (predictor_endpoint_name predictor)))
  /\ (forall e, In e (role_failures evs) -> res = Ok None)
  /\ (forall m a e,
        In (Deploy m a (Raise e)) (hosting_calls evs) -> res = Ok None)
  /\ (forall name,
        In (env_suggestion name)
           (printed (events (main {| action := deploy; endpoint := endpoint |}) p h)) ->
        res = Ok (Some name)).
Proof.
  intros evs res. subst evs res.
  split; [|split; [|split]].
  - intros m' a' pr'.
    exec_run deploy_travel_model p h unfolding (unfold deploy_travel_model).
    all: try settle_test_model.
    all: intros Hin; pick Hin.
    + inversion Hin; subst; reflexivity.
    + change (In (Deploy m' a' (Ok pr')) (hosting_calls (t ++ []))) in Hin.
      rewrite app_nil_r in Hin. destruct (proj1 (Tested_calls Ht) _ _ _ Hin).
  - intros e'.
    exec_run deploy_travel_model p h unfolding (unfold deploy_travel_model).
    all: try settle_test_model.
    all: intros Hin; pick Hin.
    all: try reflexivity.
    change (In e' (role_failures (t ++ []))) in Hin.
    rewrite app_nil_r, (proj2 (Tested_calls Ht)) in Hin. destruct Hin.
  - intros m' a' e'.
    exec_run deploy_travel_model p h unfolding (unfold deploy_travel_model).
    all: try settle_test_model.
    all: intros Hin; pick Hin.
    all: try reflexivity.
    change (In (Deploy m' a' (Raise e')) (hosting_calls (t ++ []))) in Hin.
    rewrite app_nil_r in Hin. destruct (proj1 (Tested_calls Ht) _ _ _ Hin).
  - intros name.
    pose proof deploy_travel_model_lines as Hlines.
    unfold main, events, result in *. cbn [action]. unfold bind at 1.
    destruct (deploy_travel_model p h) as [t [[returned|]|e]]; cbn [fst snd] in *.
    + destruct (truthy (Some returned)); unfold_prog; cbn [fst];
        unfold printed; rewrite observe_app; intros Hin;
        apply in_app_or in Hin; destruct Hin as [Hin|Hin].
      * discriminate (Hlines _ Hin).
      * cbn in Hin. destruct Hin as [Hin|[Hin|[]]]; [discriminate Hin|].
        unfold env_suggestion in Hin. cbn in Hin.
        inversion Hin; subst. reflexivity.
      * discriminate (Hlines _ Hin).
      * destruct Hin.
    + cbn [truthy]. unfold_prog; cbn [fst]. rewrite app_nil_r.
      intros Hin. discriminate (Hlines _ Hin).
    + intros Hin. discriminate (Hlines _ Hin).
Qed.

End TravelDeployment.

(** ** Failures of provider calls *)

Section Failures.

Import DeployModel.

Arguments get_estimated_cost : simpl never.

Variable p : Provider.
Variable h : Trace.





End Failures.

(** ** Runs against concrete providers *)

Section Examples.

Import Mock.

Lemma get_execution_role_reuses_existing_role_witness :
  In (GetRole DeployModel.role_name (Ok (account_role DeployModel.role_name)))
     (iam_calls (events DeployModel.get_execution_role all_ok []))
  /\ result DeployModel.get_execution_role all_ok []
     = Ok "arn:aws:iam::123456789012:role/SageMakerTravelAssistantRole".
Proof.
  assert (H : In (GetRole DeployModel.role_name
                    (Ok (account_role DeployModel.role_name)))
                 (iam_calls (events DeployModel.get_execution_role all_ok []))).
  { vm_compute. left. reflexivity. }
  split; [exact H|].
  exact (proj1 (get_execution_role_reuses_existing_role all_ok [] _ H)).
Defined.

(** The role is missing and the caller may not create roles: no policy is
    attached, the resolver does not sleep, and instead of an ARN the caller
    gets the exception. *)
Lemma get_execution_role_create_denied :
  let evs := events DeployModel.get_execution_role create_denied [] in
  In (GetRole DeployModel.role_name (Raise no_such_entity)) (iam_calls evs)
  /\ isinstance_NoSuchEntity no_such_entity = true
  /\ ~ (exists arn r,
          In (AttachRolePolicy DeployModel.role_name arn r) (iam_calls evs))
  /\ sleeps evs = []
  /\ result DeployModel.get_execution_role create_denied []
     = Raise access_denied.
Proof.
  vm_compute. split; [left; reflexivity|]. split; [reflexivity|].
  split; [|split; reflexivity].
  intros (arn & r & [H|[H|[]]]); discriminate H.
Qed.

Lemma get_execution_role_creates_missing_role_witness :
  In (GetRole DeployModel.role_name (Raise no_such_entity))
     (iam_calls (events DeployModel.get_execution_role role_missing []))
  /\ isinstance_NoSuchEntity no_such_entity = true
  /\ principal_service DeployModel.trust_policy = Some "sagemaker.amazonaws.com".
Proof.
  assert (H : In (GetRole DeployModel.role_name (Raise no_such_entity))
                 (iam_calls (events DeployModel.get_execution_role role_missing []))).
  { vm_compute. left. reflexivity. }
  split; [exact H|]. split; [reflexivity|].
  exact (proj1 (get_execution_role_creates_missing_role role_missing [] _ H eq_refl)).
Defined.

Lemma all_ok_resolves_role : resolves_role all_ok.
Proof. intros h'. eexists. reflexivity. Defined.

Lemma all_ok_builds_models (serverless : bool) : builds_models all_ok serverless.
Proof.
  split; [intros m h'; exists tt; reflexivity|].
  intros _. split; [intros h' | intros c h']; exists tt; reflexivity.
Defined.

Lemma main_deploys_the_selected_variant_witness :
  let serverless := {| DeployModel.args_instance_type := "ml.t2.medium";
                       DeployModel.args_endpoint_name := "travel-assistant-serverless";
                       DeployModel.args_serverless := true;
                       DeployModel.args_list := false;
                       DeployModel.args_delete := None |} in
  deploy_args (events (DeployModel.main serverless) all_ok [])
  = [{| initial_instance_count := None;
        instance_type := None;
        serverless_inference_config :=
          Some {| memory_size_in_mb := 4096; max_concurrency := 10 |};
        endpoint_name := "travel-assistant-serverless";
        wait := None;
        tags := None |}]
  /\ deploy_args (events (DeployModel.main DeployModel.default_args) all_ok [])
     = [{| initial_instance_count := Some 1;
           instance_type := Some "ml.t2.medium";
           serverless_inference_config := None;
           endpoint_name := "travel-assistant-endpoint";
           wait := None;
           tags := None |}].
Proof.
  intros serverless. split.
  - exact (proj2 (main_deploys_the_selected_variant all_ok [] serverless)
             eq_refl eq_refl all_ok_resolves_role (all_ok_builds_models true)).
  - exact (proj2 (main_deploys_the_selected_variant all_ok []
                    DeployModel.default_args)
             eq_refl eq_refl all_ok_resolves_role (all_ok_builds_models false)).
Defined.

Lemma all_ok_answers {R} (c : Call R) : answers all_ok c.
Proof. intros h'. destruct c; eexists; reflexivity. Defined.

Lemma deploy_demo_endpoint_witness :
  exists predictor reply,
    hosting_calls (events (DeployModel.main demo_args) all_ok [])
    = [Deploy (DeployModel.deploy_model_descriptor
                 "arn:aws:iam::123456789012:role/SageMakerTravelAssistantRole")
         {| initial_instance_count := Some 1;
            instance_type := Some "ml.t2.medium";
            serverless_inference_config := None;
            endpoint_name := "demo-ep";
            wait := None;
            tags := None |}
         (Ok predictor);
       Predict predictor
         (PyDict [("inputs", PyStr "Hello! I want to plan a trip to Japan.")])
         reply].
Proof.
  destruct (deploy_demo_endpoint all_ok []
              (all_ok_answers _) (all_ok_answers _)
              (fun m => all_ok_answers _) (fun m a => all_ok_answers _)
              (all_ok_answers _))
    as (role & predictor & reply & Hiam & Hhosting & _).
  exists predictor, reply.
  assert (Hrole : role = account_role DeployModel.role_name).
  { vm_compute in Hiam. inversion Hiam. reflexivity. }
  rewrite Hhosting, Hrole. reflexivity.
Defined.

Lemma no_endpoint_reports_missing (name : string) :
  reports_missing no_endpoint name.
Proof.
  intros h'. exists endpoint_missing. split; [reflexivity|].
  split; [reflexivity | vm_compute; reflexivity].
Defined.

Lemma check_endpoint_status_reports_missing_endpoint_witness :
  exists e,
    endpoint_calls (events (Scripts.check_endpoint_status "travel-assistant-endpoint")
                      no_endpoint [])
    = [DescribeEndpoint "travel-assistant-endpoint" (Raise e)]
    /\ printed (events (Scripts.check_endpoint_status "travel-assistant-endpoint")
                  no_endpoint [])
       = ["❌ Endpoint 'travel-assistant-endpoint' not found"]
    /\ result (Scripts.check_endpoint_status "travel-assistant-endpoint")
         no_endpoint [] = Ok None.
Proof.
  refine (proj2 (proj2 (check_endpoint_status_reports_missing_endpoint
                          no_endpoint [] "travel-assistant-endpoint")) _ _).
  - intros h'. exists tt. reflexivity.
  - apply no_endpoint_reports_missing.
Defined.

Lemma check_endpoint_status_result_witness :
  result (Scripts.check_endpoint_status "demo-ep") all_ok [] = Ok (Some "InService")
  /\ result (Scripts.check_endpoint_status "demo-ep") throttling [] = Ok None.
Proof.
  split.
  - refine (proj1 (check_endpoint_status_result all_ok [] "demo-ep") "InService" _).
    vm_compute. left. reflexivity.
  - refine (proj2 (check_endpoint_status_result throttling [] "demo-ep")
              throttled _ _).
    + vm_compute. left. reflexivity.
    + reflexivity.
Defined.

Lemma delete_attempts_config_after_endpoint_witness :
  exists outcome,
    endpoint_calls (events (DeployModel.delete_endpoint "demo-ep") no_config [])
    = [DeleteEndpoint "demo-ep" (Ok tt); DeleteEndpointConfig "demo-ep" outcome]
    /\ result (DeployModel.delete_endpoint "demo-ep") no_config [] = Ok tt.
Proof.
  refine (proj1 (proj1 (delete_attempts_config_after_endpoint no_config [])
                   "demo-ep") _).
  vm_compute. left. reflexivity.
Defined.

(** Neither the endpoint nor its configuration exists, or only the
    configuration was left behind: the deletion of the endpoint is refused,
    and neither operation goes on to the configuration. *)
Lemma delete_refused_leaves_config :
  endpoint_calls (events (DeployModel.delete_endpoint "demo-ep") no_endpoint [])
  = [DeleteEndpoint "demo-ep" (Raise cannot_delete)]
  /\ endpoint_calls (events (Scripts.cleanup_endpoint "demo-ep") no_endpoint [])
     = [DeleteEndpoint "demo-ep" (Raise cannot_delete)]
  /\ ~ (exists r,
          In (DeleteEndpointConfig "demo-ep" r)
             (endpoint_calls
                (events (DeployModel.delete_endpoint "demo-ep") no_endpoint [])))
  /\ ~ (exists r,
          In (DeleteEndpointConfig "demo-ep" r)
             (endpoint_calls
                (events (Scripts.cleanup_endpoint "demo-ep") no_endpoint []))).
Proof.
  vm_compute. repeat split.
  - intros (r & [H|[]]). discriminate H.
  - intros (r & [H|[]]). discriminate H.
Qed.

Lemma test_model_tries_every_prompt_witness :
  let predictor := {| predictor_endpoint_name := "demo-ep" |} in
  requests (events (Scripts.test_model predictor) cold_start [])
  = [(predictor, Scripts.predict_payload "Plan a 3-day itinerary for Paris");
     (predictor, Scripts.predict_payload "What are the best travel tips for Japan?");
     (predictor, Scripts.predict_payload
                   "Recommend activities for a family vacation in Orlando")]
  /\ Scripts.slice_to 200 (PyStr (str_repeat "東京" 60))
     = Ok (PyStr (str_repeat "東京" 60))
  /\ (exists pr,
        requests (events (DeployModel.deploy_model "ml.t2.medium" "demo-ep")
                    all_ok [])
        = [(pr, PyDict [("inputs",
                         PyStr "Hello! I want to plan a trip to Japan.")])])
  /\ payload_parameters DeployModel.test_payload = None.
Proof.
  intros predictor.
  pose proof (test_model_tries_every_prompt cold_start [] predictor)
    as (_ & _ & Hrequests & _ & Hslice & Hdeploy & _ & _).
  pose proof (test_model_tries_every_prompt all_ok [] predictor)
    as (_ & _ & _ & _ & _ & _ & _ & Hlive).
  split; [exact Hrequests|]. split; [|split].
  - destruct (Hslice (str_repeat "東京" 60)) as (Hcut & _ & _ & Hwhole).
    rewrite Hcut, Hwhole; [reflexivity|].
    apply Nat.leb_le. vm_compute. reflexivity.
  - apply (Hlive "ml.t2.medium" "demo-ep").
    + exact all_ok_resolves_role.
    + intros m. apply all_ok_answers.
    + intros m a. apply all_ok_answers.
    + apply all_ok_answers.
  - refine (proj2 (Hdeploy "ml.t2.medium" "demo-ep" predictor
                     DeployModel.test_payload _)).
    vm_compute. left. reflexivity.
Defined.

(** The smoke test of [deploy_model]: one request, holding the inputs field
    and no generation parameters, and the reply is printed as it came, all
    280 characters of its text. *)
Lemma deploy_model_smoke_test_is_bare :
  let evs := events (DeployModel.deploy_model "ml.t2.medium" "demo-ep") talkative [] in
  requests evs
  = [({| predictor_endpoint_name := "demo-ep" |},
      PyDict [("inputs", PyStr "Hello! I want to plan a trip to Japan.")])]
  /\ payload_parameters
       (PyDict [("inputs", PyStr "Hello! I want to plan a trip to Japan.")]) = None
  /\ In (EPrintVal "✓ Test response: " long_reply EmptyString) evs
  /\ generated_text long_reply = Ok (PyStr (str_repeat "Tokyo, Kyoto. " 20))
  /\ String.length (str_repeat "Tokyo, Kyoto. " 20) = 280%nat.
Proof.
  vm_compute. repeat split.
  repeat (first [left; reflexivity | right]).
Qed.

Lemma deploy_travel_model_result_witness :
  result Scripts.deploy_travel_model all_ok [] = Ok (Some "travel-assistant-endpoint")
  /\ result Scripts.deploy_travel_model no_quota [] = Ok None
  /\ result Scripts.deploy_travel_model no_notebook [] = Ok None.
Proof.
  split; [|split].
  - refine (proj1 (deploy_travel_model_result all_ok [] "travel-assistant-endpoint")
              (Scripts.travel_model_descriptor (Arn (account_role "notebook")))
              (Scripts.travel_deploy_args
                 {| memory_size_in_mb := 4096; max_concurrency := 10 |})
              {| predictor_endpoint_name := "travel-assistant-endpoint" |} _).
    vm_compute. left. reflexivity.
  - refine (proj1 (proj2 (proj2
              (deploy_travel_model_result no_quota [] "travel-assistant-endpoint")))
              (Scripts.travel_model_descriptor (Arn (account_role "notebook")))
              (Scripts.travel_deploy_args
                 {| memory_size_in_mb := 4096; max_concurrency := 10 |})
              quota_exceeded _).
    vm_compute. left. reflexivity.
  - refine (proj1 (proj2
              (deploy_travel_model_result no_notebook [] "travel-assistant-endpoint"))
              no_credentials _).
    vm_compute. left. reflexivity.
Defined.



End Examples.

(** ** Further properties: cost table and listing *)

Section Listing.

Import DeployModel.

Variable p : Provider.
Variable h : Trace.

(** A key that is not in a dict is not found. *)
Lemma dict_get_None {V} (key : string) (d : list (string * V)) :
  dict_get key d = None <-> ~ In key (map fst d).
Proof.
  induction d as [|[k v] d IH]; cbn.
  - split; [intros _ [] | reflexivity].
  - destruct (String.eqb k key) eqn:E.
    + apply String.eqb_eq in E. split; [discriminate | intros H; exfalso; auto].
    + apply String.eqb_neq in E. rewrite IH. tauto.
Qed.

(** The estimate is a price exactly for the five instance types of the
    table, and the word [unknown] for every other instance type. *)
Theorem get_estimated_cost_unknown (instance_type : string) :
  get_estimated_cost instance_type = "unknown"
  <-> ~ In instance_type
          ["ml.t2.medium"; "ml.t2.large"; "ml.m5.large"; "ml.g4dn.xlarge";
           "ml.inf1.xlarge"].
Proof.
  unfold get_estimated_cost.
  destruct (dict_get instance_type costs) as [c|] eqn:E.
  - split.
    + intros ->. exfalso. revert E. unfold costs. cbn [dict_get].
      repeat match goal with
             | |- context [String.eqb ?k instance_type] =>
                 destruct (String.eqb k instance_type);
                 [intros Habs; discriminate Habs|]
             end.
      intros Habs; discriminate Habs.
    + intros Hnot. exfalso.
      apply (proj2 (dict_get_None instance_type costs)) in Hnot.
      congruence.
  - split; [|reflexivity].
    intros _. exact (proj1 (dict_get_None instance_type costs) E).
Qed.

(** The loop of [list_endpoints] prints the four lines of each endpoint, in
    the order of the listing. *)
Lemma print_endpoints_lines (endpoints : list EndpointSummary) (h' : Trace) :
  print_endpoints endpoints p h'
  = (map EPrint (flat_map endpoint_lines endpoints), Ok tt).
Proof.
  revert h'. induction endpoints as [|endpoint rest IH]; intros h'.
  - reflexivity.
  - cbn [print_endpoints]. unfold_prog. cbn.
    match goal with
    | |- context [print_endpoints rest p ?h2] => rewrite (IH h2)
    end.
    reflexivity.
Qed.

Lemma printed_prints (lines : list string) : printed (map EPrint lines) = lines.
Proof. induction lines as [|l lines IH]; [reflexivity|]. cbn. f_equal. exact IH. Qed.

Lemma state_changing_prints (lines : list string) :
  existsb state_changing (map EPrint lines) = false.
Proof. induction lines; [reflexivity | assumption]. Qed.

Lemma endpoint_calls_prints (lines : list string) :
  endpoint_calls (map EPrint lines) = [].
Proof. induction lines; [reflexivity | assumption]. Qed.

(** What [list_endpoints] prints for a listing the provider returned: one
    line when there is no endpoint, otherwise a title, a rule, and four
    lines per endpoint in the order of the listing.  It changes nothing at
    the provider and always returns. *)
Theorem list_endpoints_output (endpoints : list EndpointSummary) :
  let evs := events list_endpoints p h in
  In (Ok endpoints) (listings evs) ->
  printed evs
  = match endpoints with
    | [] => ["No endpoints found"]
    | _ :: _ =>
        fstr [nl; "📍 Existing SageMaker Endpoints:"]
        :: str_repeat "-" 60
        :: flat_map endpoint_lines endpoints
    end
  /\ existsb state_changing evs = false
  /\ result list_endpoints p h = Ok tt.
Proof.
  intros evs. subst evs.
  exec_run list_endpoints p h unfolding (unfold list_endpoints).
  all: try (intros Hin; pick Hin; fail).
  - intros Hin; pick Hin. inversion Hin; subst. repeat split.
  - rewrite print_endpoints_lines. cbn.
    intros Hin. destruct Hin as [Hin|Hin].
    + inversion Hin; subst. cbn. split; [|split; [|reflexivity]].
      * do 6 f_equal. apply printed_prints.
      * apply state_changing_prints.
    + exfalso. revert Hin.
      match goal with
      | |- In _ (_ (map EPrint ?lines)) -> False =>
          induction lines; [intros [] | assumption]
      end.
Qed.

End Listing.

(** ** Further properties: the role resolver *)

Section RoleResolverFurther.

Import DeployModel.

Variable p : Provider.
Variable h : Trace.

(** When the lookup of the role fails with anything but the answer that the
    role is missing, the resolver does not try to create the role: the
    lookup is its only IAM call, the four lines of advice are printed, and
    the exception of the lookup is raised to the caller. *)
Theorem get_execution_role_lookup_refused (e : Exn) :
  let evs := events get_execution_role p h in
  In (GetRole role_name (Raise e)) (iam_calls evs) ->
  isinstance_NoSuchEntity e = false ->
  iam_calls evs = [GetRole role_name (Raise e)]
  /\ printed evs
     = [fstr ["Error with IAM role: "; exn_str e];
        fstr [nl; "Please manually create a SageMaker execution role with:"];
        "1. Trust policy for sagemaker.amazonaws.com";
        "2. AmazonSageMakerFullAccess policy attached"]
  /\ existsb state_changing evs = false
  /\ result get_execution_role p h = Raise e.
Proof.
  intros evs. subst evs.
  exec_run get_execution_role p h unfolding (unfold get_execution_role).
  all: intros Hin He; pick Hin.
  all: inversion Hin; subst; try congruence.
  repeat split.
Qed.

(** The exception the resolver raises is always the exception of one of its
    own provider calls, and it is announced before it is raised. *)
Theorem get_execution_role_raises_what_failed (e : Exn) :
  let evs := events get_execution_role p h in
  result get_execution_role p h = Raise e ->
  In (false, e) (failures evs)
  /\ In (fstr ["Error with IAM role: "; exn_str e]) (printed evs)
  /\ sleeps evs = [].
Proof.
  intros evs. subst evs.
  exec_run get_execution_role p h unfolding (unfold get_execution_role).
  all: intros Hres; try discriminate Hres.
  all: inversion Hres; subst.
  all: repeat split; cbn;
       repeat (first [left; reflexivity | left; congruence | right]).
Qed.

Lemma known_role_app (h1 h2 : Trace) :
  known_role (h1 ++ h2)
  = match known_role h1 with
    | Some role => Some role
    | None => known_role h2
    end.
Proof.
  unfold known_role. rewrite observe_app.
  destruct (observe as_known_role h1); reflexivity.
Qed.

(** Against a provider that keeps its roles and hands out IAM clients, a
    run of the resolver that returned an ARN settles the matter: the next
    run, whatever the first one had to do, finds the role, returns the same
    ARN, and creates and attaches nothing. *)
Theorem get_execution_role_second_run (arn : string) :
  keeps_roles p ->
  answers p (Boto3Client "iam") ->
  result get_execution_role p h = Ok arn ->
  let h2 := h ++ events get_execution_role p h in
  result get_execution_role p h2 = Ok arn
  /\ iam_calls (events get_execution_role p h2)
     = [GetRole role_name (Ok {| Arn := arn |})]
  /\ existsb state_changing (events get_execution_role p h2) = false.
Proof.
  intros Hkeeps Hclient Hres h2.
  assert (Hknown : exists role,
            known_role h2 = Some role /\ Arn role = arn).
  { subst h2. revert Hres. unfold events, result, get_execution_role.
    unfold_prog.
    destruct (Hclient h) as [a ->]. cbn.
    destruct (known_role h) as [role0|] eqn:Hh.
    - rewrite (Hkeeps (h ++ [ECall (Boto3Client "iam") (Ok a)]) role0).
      2:{ rewrite known_role_app, Hh. reflexivity. }
      cbn. intros [= <-]. exists role0.
      rewrite known_role_app, Hh. split; reflexivity.
    - destruct (p Role (h ++ [ECall (Boto3Client "iam") (Ok a)])
                  (IamGetRole role_name)) as [role|e]; cbn.
      + intros [= <-]. exists role.
        rewrite known_role_app, Hh. split; reflexivity.
      + destruct (isinstance_NoSuchEntity e); cbn; [|discriminate].
        match goal with
        | |- context [p Role ?h' (IamCreateRole ?n ?d ?s)] =>
            destruct (p Role h' (IamCreateRole n d s)) as [role|e1]
        end; cbn; [|discriminate].
        match goal with
        | |- context [p unit ?h' (IamAttachRolePolicy ?n ?a)] =>
            destruct (p unit h' (IamAttachRolePolicy n a)) as [u|e2]
        end; cbn; [|discriminate].
        intros [= <-]. exists role.
        rewrite known_role_app, Hh. split; reflexivity. }
  destruct Hknown as (role & Hknown & <-).
  unfold events, result, get_execution_role. unfold_prog.
  destruct (Hclient h2) as [a2 ->]. cbn.
  rewrite (Hkeeps (h2 ++ [ECall (Boto3Client "iam") (Ok a2)]) role).
  2:{ rewrite known_role_app, Hknown. reflexivity. }
  cbn. destruct role. repeat split.
Qed.

End RoleResolverFurther.

(** ** Further properties: the deployers and the dispatch of
    deploy-sagemaker-model.py *)

Section DeployersFurther.

Import DeployModel.

Arguments get_estimated_cost : simpl never.

Variable p : Provider.
Variable h : Trace.

(** The role a model is given is the one the resolver obtained: every
    deploy call of [deploy_model] and of [deploy_serverless] is made for the
    endpoint named in the arguments, on a model whose role is the ARN of the
    role that was found or created in the same run.  No model is deployed
    without it. *)
Theorem deployers_use_the_resolved_role (instance_type endpoint_name : string) :
  deploys_with_resolved_role p h
    (deploy_model instance_type endpoint_name) endpoint_name
  /\ deploys_with_resolved_role p h
       (deploy_serverless endpoint_name) endpoint_name.
Proof.
  split; intros m a r.
  - exec_run (deploy_model instance_type endpoint_name) p h
      unfolding (unfold deploy_model, get_execution_role).
    all: intros Hin; pick Hin.
    all: inversion Hin; subst; eexists; split; [reflexivity|];
         split; [reflexivity|].
    all: cbn; first [ left; left; reflexivity
                    | right; do 2 eexists; right; left; reflexivity ].
  - exec_run (deploy_serverless endpoint_name) p h
      unfolding (unfold deploy_serverless, get_execution_role).
    all: intros Hin; pick Hin.
    all: inversion Hin; subst; eexists; split; [reflexivity|];
         split; [reflexivity|].
    all: cbn; first [ left; left; reflexivity
                    | right; do 2 eexists; right; left; reflexivity ].
Qed.

(** A smoke test that fails after a successful deployment: [deploy_model]
    has already announced the success, reports the failure as a failed
    deployment, leaves the endpoint in place (it issues no delete call) and
    returns normally. *)
Theorem deploy_model_smoke_test_failure
    (instance_type endpoint_name : string) (pr : Predictor) (payload : pyval)
    (e : Exn) :
  let evs := events (deploy_model instance_type endpoint_name) p h in
  In (Predict pr payload (Raise e)) (hosting_calls evs) ->
  (exists m a, hosting_calls evs
               = [Deploy m a (Ok pr); Predict pr payload (Raise e)])
  /\ In "✅ DEPLOYMENT SUCCESSFUL!" (printed evs)
  /\ In (fstr [nl; "❌ Deployment failed: "; exn_str e]) (printed evs)
  /\ ~ In (fstr [nl; "📊 Estimated Cost:"]) (printed evs)
  /\ endpoint_calls evs = []
  /\ result (deploy_model instance_type endpoint_name) p h = Ok tt.
Proof.
  intros evs. subst evs.
  exec_run (deploy_model instance_type endpoint_name) p h
    unfolding (unfold deploy_model, get_execution_role).
  all: intros Hin; pick Hin.
  all: inversion Hin; subst.
  all: split; [do 2 eexists; reflexivity|].
  all: split; [cbn; repeat (first [left; reflexivity | right])|].
  all: split; [cbn; repeat (first [left; reflexivity | right])|].
  all: split; [|split; reflexivity].
  all: cbn; intros Habs;
       repeat (destruct Habs as [Habs|Habs]; [discriminate Habs|]);
       exact Habs.
Qed.

Lemma deploy_serverless_calls (endpoint_name : string) :
  requests (events (deploy_serverless endpoint_name) p h) = []
  /\ endpoint_calls (events (deploy_serverless endpoint_name) p h) = []
  /\ (length (deploy_args (events (deploy_serverless endpoint_name) p h))
      <= 1)%nat.
Proof.
  exec_run (deploy_serverless endpoint_name) p h
    unfolding (unfold deploy_serverless, get_execution_role).
  all: cbn; repeat split; lia.
Qed.

Lemma deploy_model_calls (instance_type endpoint_name : string) :
  endpoint_calls (events (deploy_model instance_type endpoint_name) p h) = []
  /\ (length (deploy_args (events (deploy_model instance_type endpoint_name) p h))
      <= 1)%nat.
Proof.
  exec_run (deploy_model instance_type endpoint_name) p h
    unfolding (unfold deploy_model, get_execution_role).
  all: cbn; repeat split; lia.
Qed.

(** [deploy_serverless] sends no inference request, and neither deployer
    ever deletes or describes an endpoint, not even after a failed
    deployment; each issues at most one deploy call. *)
Theorem deployers_leave_endpoints_alone (instance_type endpoint_name : string) :
  requests (events (deploy_serverless endpoint_name) p h) = []
  /\ endpoint_calls (events (deploy_serverless endpoint_name) p h) = []
  /\ endpoint_calls (events (deploy_model instance_type endpoint_name) p h) = []
  /\ (length (deploy_args (events (deploy_serverless endpoint_name) p h)) <= 1)%nat
  /\ (length (deploy_args (events (deploy_model instance_type endpoint_name) p h))
      <= 1)%nat.
Proof.
  pose proof (deploy_serverless_calls endpoint_name) as Hs.
  pose proof (deploy_model_calls instance_type endpoint_name) as Hm.
  tauto.
Qed.

(** Deletion happens on request only: a run of the dispatch deletes an
    endpoint only when [--list] is absent and [--delete] names it, with a
    name that is not empty; with [--list] nothing at the provider is
    changed, whatever the other arguments. *)
Theorem main_deletes_on_request_only (args : Args) :
  (forall name r,
     In (DeleteEndpoint name r) (endpoint_calls (events (main args) p h)) ->
     args_list args = false
     /\ args_delete args = Some name
     /\ name <> EmptyString)
  /\ (args_list args = true ->
      existsb state_changing (events (main args) p h) = false
      /\ result (main args) p h = Ok tt).
Proof.
  destruct args as [it ep serverless list del].
  unfold main. cbn [args_list args_delete args_serverless
    args_instance_type args_endpoint_name].
  destruct (deploy_serverless_calls ep) as (_ & Hs & _).
  destruct (deploy_model_calls it ep) as (Hm & _).
  assert (Hl : endpoint_calls (events list_endpoints p h) = []
               /\ existsb state_changing (events list_endpoints p h) = false
               /\ result list_endpoints p h = Ok tt).
  { exec_run list_endpoints p h unfolding (unfold list_endpoints).
    all: try (repeat split; fail).
    rewrite print_endpoints_lines. cbn.
    split; [apply endpoint_calls_prints|].
    split; [apply state_changing_prints | reflexivity]. }
  destruct list.
  { split; [|intros _; tauto].
    intros name r. rewrite (proj1 Hl). intros []. }
  split; [|discriminate].
  intros name r.
  assert (Hrest :
    ~ In (DeleteEndpoint name r)
         (endpoint_calls
            (events (if serverless then deploy_serverless ep
                     else deploy_model it ep) p h))).
  { destruct serverless; [rewrite Hs | rewrite Hm]; intros []. }
  destruct del as [target|]; [|intros Hin; destruct (Hrest Hin)].
  cbn [truthy]. destruct (String.eqb target EmptyString) eqn:Hempty; cbn [negb].
  { intros Hin; destruct (Hrest Hin). }
  apply String.eqb_neq in Hempty.
  exec_run (delete_endpoint target) p h unfolding (unfold delete_endpoint).
  all: intros Hin; pick Hin.
  all: inversion Hin; subst; repeat split; assumption.
Qed.

End DeployersFurther.

(** ** Further properties: scripts/deploy-sagemaker.py *)

Section ScriptsFurther.

Import Scripts.

Arguments test_model : simpl never.

Variable p : Provider.
Variable h : Trace.

Ltac settle_test :=
  match goal with
  | |- context [test_model ?pr p ?h'] =>
      let t := fresh "t" in
      let Hrun := fresh "Hrun" in
      let Ht := fresh "Ht" in
      destruct (test_model_spec p pr h') as (t & Hrun & Ht);
      rewrite Hrun; clear Hrun; cbn
  end.

(** A test changes nothing at the provider, touches no endpoint and builds
    no SDK object. *)
Lemma Tested_readonly {predictor : Predictor} {i : nat} {queries : list string}
    {t : Trace} :
  Tested predictor i queries t ->
  existsb state_changing t = false
  /\ endpoint_calls t = []
  /\ construction_failures t = [].
Proof.
  induction 1 as [|i query rest outcome report t Hreport _ (IH1 & IH2 & IH3)].
  - repeat split.
  - destruct outcome, Hreport; cbn; repeat split; assumption.
Qed.

(** The failures [deploy_travel_model] does not catch: it raises exactly
    when the construction of the model or of the serverless configuration
    raised, with that exception, and then it has issued no deploy call. *)
Theorem deploy_travel_model_raises (e : Exn) :
  let evs := events deploy_travel_model p h in
  (result deploy_travel_model p h = Raise e <-> In e (construction_failures evs))
  /\ (In e (construction_failures evs) -> hosting_calls evs = []).
Proof.
  intros evs. subst evs.
  exec_run deploy_travel_model p h unfolding (unfold deploy_travel_model).
  all: try settle_test.
  all: split; [split|].
  all: try (intros Hres; discriminate Hres).
  all: try (intros [= <-]; cbn; auto; fail).
  all: try (intros Hin; pick Hin; subst; reflexivity).
  all: try (intros Hin; pick Hin; fail).
  all: intros Hin; exfalso.
  all: change (In e (construction_failures (t ++ []))) in Hin.
  all: rewrite app_nil_r, (proj2 (proj2 (Tested_readonly Ht))) in Hin.
  all: destruct Hin.
Qed.

(** The failures the lifecycle operations of this script do not catch.
    [cleanup_endpoint] raises exactly when the creation of the client
    raised; [check_endpoint_status] raises exactly when the creation of the
    client raised or the describe call raised something that is not a
    client error.  A client that cannot be created leaves no line and no
    call behind. *)
Theorem lifecycle_uncaught_failures (endpoint_name : string) (e : Exn) :
  let cleanup := cleanup_endpoint endpoint_name in
  let status := check_endpoint_status endpoint_name in
  (result cleanup p h = Raise e <-> In e (client_failures (events cleanup p h)))
  /\ (result status p h = Raise e
      <-> In e (client_failures (events status p h))
          \/ (In (DescribeEndpoint endpoint_name (Raise e))
                 (endpoint_calls (events status p h))
              /\ isinstance_ClientError e = false))
  /\ (In e (client_failures (events cleanup p h)) ->
      printed (events cleanup p h) = []
      /\ endpoint_calls (events cleanup p h) = [])
  /\ (In e (client_failures (events status p h)) ->
      printed (events status p h) = []
      /\ endpoint_calls (events status p h) = []).
Proof.
  intros cleanup status. subst cleanup status.
  split; [|split; [|split]].
  - exec_run (cleanup_endpoint endpoint_name) p h
      unfolding (unfold cleanup_endpoint).
    all: cbn; split; [intros Hres; try discriminate Hres | intros Hin; pick Hin].
    + inversion Hres; subst. left. reflexivity.
    + subst. reflexivity.
  - exec_run (check_endpoint_status endpoint_name) p h
      unfolding (unfold check_endpoint_status).
    all: cbn; split;
      [ intros Hres; try discriminate Hres
      | intros [Hin|[Hin Hclass]]; pick Hin ].
    all: try (inversion Hres; subst).
    all: try (inversion Hin; subst; congruence).
    all: try (subst; reflexivity).
    + right. split; [left; reflexivity | assumption].
    + left. left. reflexivity.
  - exec_run (cleanup_endpoint endpoint_name) p h
      unfolding (unfold cleanup_endpoint).
    all: cbn; intros Hin; pick Hin.
    split; reflexivity.
  - exec_run (check_endpoint_status endpoint_name) p h
      unfolding (unfold check_endpoint_status).
    all: cbn; intros Hin; pick Hin.
    split; reflexivity.
Qed.

(** The line the status operation prints after the status itself: the
    endpoint is announced ready exactly for the status InService, announced
    as being deployed exactly for Creating and Updating, and any other
    status is repeated in a warning.  The operation changes nothing at the
    provider. *)
Theorem check_endpoint_status_message (endpoint_name status : string) :
  let evs := events (check_endpoint_status endpoint_name) p h in
  In (DescribeEndpoint endpoint_name (Ok status)) (endpoint_calls evs) ->
  (exists message,
     printed evs
     = [fstr ["📊 Endpoint '"; endpoint_name; "' status: "; status]; message]
     /\ (message = "✅ Endpoint is ready for inference!"
         <-> status = "InService")
     /\ (message = "⏳ Endpoint is being deployed..."
         <-> status = "Creating" \/ status = "Updating")
     /\ (message = fstr ["⚠️ Endpoint status: "; status]
         <-> status <> "InService" /\ status <> "Creating"
             /\ status <> "Updating"))
  /\ existsb state_changing evs = false.
Proof.
  intros evs. subst evs.
  exec_run (check_endpoint_status endpoint_name) p h
    unfolding (unfold check_endpoint_status).
  all: cbn; intros Hin; pick Hin.
  all: inversion Hin; subst; clear Hin.
  all: repeat match goal with
       | E : (_ =? _)%string = true |- _ => apply String.eqb_eq in E; subst
       | E : (_ =? _)%string = false |- _ => apply String.eqb_neq in E
       | E : (_ || _)%bool = true |- _ => apply orb_true_iff in E
       | E : (_ || _)%bool = false |- _ =>
           apply orb_false_iff in E; destruct E
       end.
  all: repeat match goal with
       | E : _ \/ _ |- _ => destruct E
       | E : (_ =? _)%string = true |- _ => apply String.eqb_eq in E; subst
       end.
  all: split; [|reflexivity].
  all: eexists; split; [reflexivity|].
  all: repeat split; intros;
       repeat match goal with
              | H : _ \/ _ |- _ => destruct H
              | H : _ /\ _ |- _ => destruct H
              end;
       try reflexivity; try congruence;
       try (left; reflexivity); try (right; reflexivity).
Qed.

(** What each action of [main] may touch.  Only the deploy action deploys,
    always as a serverless endpoint named travel-assistant-endpoint,
    whatever [--endpoint] says; only the cleanup action deletes, and only
    the endpoint and the configuration named by [--endpoint]; only the
    status action describes, and only that endpoint; the status and test
    actions change nothing at the provider. *)
Theorem scripts_main_touches (args : Args) :
  let evs := events (main args) p h in
  (forall m a r,
     In (Deploy m a r) (hosting_calls evs) ->
     action args = deploy
     /\ endpoint_name a = "travel-assistant-endpoint"
     /\ serverless_inference_config a
        = Some {| memory_size_in_mb := 4096; max_concurrency := 10 |}
     /\ instance_type a = None
     /\ initial_instance_count a = None)
  /\ (forall c,
        In c (endpoint_calls evs) ->
        match c with
        | DescribeEndpoint name _ =>
            action args = status /\ name = endpoint args
        | DeleteEndpoint name _ | DeleteEndpointConfig name _ =>
            action args = cleanup /\ name = endpoint args
        end)
  /\ (action args = status \/ action args = test ->
      existsb state_changing evs = false).
Proof.
  intros evs. subst evs. destruct args as [[] ep]; unfold main; cbn [action endpoint].
  - exec_run (x <- deploy_travel_model ;;
              if truthy x
              then print (fstr [nl; "🎉 Deployment complete!"]) ;;
                   print (fstr ["📝 Update your .env file with: SAGEMAKER_ENDPOINT_NAME=";
                                str_of_option x])
              else ret tt) p h
      unfolding (unfold deploy_travel_model).
    all: try (settle_test; repeat (step_test; cbn)).
    all: cbn; (split; [|split]);
         [ intros m' a' r' Hin | intros c Hin | intros [H|H]; discriminate H ].
    all: try (pick Hin; fail).
    all: try (destruct Hin as [Hin|Hin];
              [inversion Hin; subst; repeat split; reflexivity|]).
    all: exfalso; try contradiction.
    all: rewrite ?app_nil_r in Hin.
    all: try (rewrite flat_map_app in Hin; apply in_app_or in Hin;
              destruct Hin as [Hin|Hin]; [|pick Hin]).
    all: try (destruct (proj1 (Tested_calls Ht) _ _ _ Hin)).
    all: change (In c (endpoint_calls t)) in Hin;
         rewrite (proj1 (proj2 (Tested_readonly Ht))) in Hin;
         destruct Hin.
  - exec_run (check_endpoint_status ep ;; ret tt) p h
      unfolding (unfold check_endpoint_status).
    all: cbn; (split; [|split]);
         [ intros m' a' r' Hin | intros c Hin | intros _; reflexivity ].
    all: pick Hin.
    all: subst c; split; reflexivity.
  - exec_run (call SagemakerSession ;;
              predictor <- call (NewPredictor ep) ;; test_model predictor) p h
      unfolding idtac.
    all: try settle_test.
    all: cbn; (split; [|split]);
         [ intros m' a' r' Hin | intros c Hin | intros _ ].
    all: try (pick Hin; fail).
    all: try reflexivity.
    + destruct (proj1 (Tested_calls Ht) _ _ _ Hin).
    + change (In c (endpoint_calls t)) in Hin.
      rewrite (proj1 (proj2 (Tested_readonly Ht))) in Hin. destruct Hin.
    + exact (proj1 (Tested_readonly Ht)).
  - exec_run (cleanup_endpoint ep) p h unfolding (unfold cleanup_endpoint).
    all: cbn; (split; [|split]);
         [ intros m' a' r' Hin | intros c Hin | intros [H|H]; discriminate H ].
    all: pick Hin.
    all: subst c; split; reflexivity.
Qed.

End ScriptsFurther.

(** ** Further properties: replies of the model *)

Section Replies.

Import Scripts.

Variable p : Provider.
Variable h : Trace.

(** How one turn of [test_model] reads a reply.  A reply is usable only if
    it is a list whose first item is a record: then the text under
    [generated_text] is printed, cut to 200 characters, and the words
    [No response] are printed when the record has no such key.  For a reply
    of any other shape the turn reports the failure of its prompt.  The
    turn itself never raises. *)
Theorem test_query_reads_reply (predictor : Predictor) (i : nat)
    (query : string) (response : pyval) :
  let evs := events (test_query predictor i query) p h in
  In (Predict predictor (predict_payload query) (Ok response))
     (hosting_calls evs) ->
  (forall d rest,
     response = PyList (PyDict d :: rest) ->
     (dict_get "generated_text" d = None ->
      In (EPrintVal "✅ Response: " (PyStr "No response") "...") evs)
     /\ (forall s,
           dict_get "generated_text" d = Some (PyStr s) ->
           In (EPrintVal "✅ Response: " (PyStr (take_chars 200 s)) "...") evs))
  /\ ((forall d rest, response <> PyList (PyDict d :: rest)) ->
      exists e, printed evs = [test_header i query; test_failed i e])
  /\ result (test_query predictor i query) p h = Ok tt.
Proof.
  intros evs. subst evs.
  unfold events, result, test_query. unfold_prog.
  match goal with
  | |- context [p ?R ?h' ?c] => destruct (p R h' c) as [reply|e]
  end; cbn [fst snd app].
  2:{ intros Hin. cbn in Hin. pick Hin. }
  intros Hin.
  assert (reply = response) as ->.
  { destruct (getitem0 reply) as [first|];
      [destruct (get first "generated_text" (PyStr "No response")) as [text|];
       [destruct (slice_to 200 text)|]|];
      cbn in Hin; pick Hin; inversion Hin; reflexivity. }
  clear Hin.
  split; [|split].
  - intros d rest ->. cbn [getitem0 get].
    split.
    + intros ->. cbn. do 2 right. left. reflexivity.
    + intros s ->. cbn. do 2 right. left. reflexivity.
  - intros Hshape.
    destruct response as [|b0|z|lit|s|b|l|d]; cbn;
      try (eexists (mkExn OtherException _); reflexivity).
    + destruct s; cbn; eexists (mkExn OtherException _); reflexivity.
    + destruct b; cbn; eexists (mkExn OtherException _); reflexivity.
    + destruct l as [|first rest]; cbn; [eexists (mkExn OtherException _); reflexivity|].
      destruct first; cbn; try (eexists (mkExn OtherException _); reflexivity).
      destruct (Hshape _ _ eq_refl).
  - destruct (getitem0 response) as [first|];
      [destruct (get first "generated_text" (PyStr "No response")) as [text|];
       [destruct (slice_to 200 text)|]|];
      reflexivity.
Qed.

End Replies.

(** ** Further runs against concrete providers *)

Section FurtherExamples.

Import Mock.

Lemma list_endpoints_output_witness :
  printed (events DeployModel.list_endpoints busy_account [])
  = fstr [nl; "📍 Existing SageMaker Endpoints:"]
    :: str_repeat "-" 60
    :: flat_map endpoint_lines two_endpoints.
Proof.
  refine (proj1 (list_endpoints_output busy_account [] two_endpoints _)).
  vm_compute. left. reflexivity.
Defined.

Lemma get_execution_role_lookup_refused_witness :
  result DeployModel.get_execution_role lookup_denied [] = Raise access_denied.
Proof.
  refine (proj2 (proj2 (proj2
            (get_execution_role_lookup_refused lookup_denied [] access_denied _ _)))).
  - vm_compute. left. reflexivity.
  - reflexivity.
Defined.

Lemma get_execution_role_raises_what_failed_witness :
  In (false, access_denied)
     (failures (events DeployModel.get_execution_role create_denied [])).
Proof.
  refine (proj1 (get_execution_role_raises_what_failed create_denied []
                   access_denied _)).
  vm_compute. reflexivity.
Defined.

Lemma fresh_account_keeps_roles : keeps_roles fresh_account.
Proof. intros h role Hknown. cbn. rewrite Hknown. reflexivity. Defined.

Lemma fresh_account_answers_client : answers fresh_account (Boto3Client "iam").
Proof. intros h. exists tt. reflexivity. Defined.

Lemma get_execution_role_second_run_witness :
  let first := events DeployModel.get_execution_role fresh_account [] in
  iam_calls first
  = [GetRole DeployModel.role_name (Raise no_such_entity);
     CreateRole DeployModel.role_name (json_dumps DeployModel.trust_policy)
       "Execution role for Travel Assistant SageMaker endpoint"
       (Ok (account_role DeployModel.role_name));
     AttachRolePolicy DeployModel.role_name DeployModel.full_access_policy (Ok tt)]
  /\ iam_calls (events DeployModel.get_execution_role fresh_account first)
     = [GetRole DeployModel.role_name (Ok (account_role DeployModel.role_name))].
Proof.
  intros first. split; [vm_compute; reflexivity|].
  refine (proj1 (proj2
            (get_execution_role_second_run fresh_account []
               (Arn (account_role DeployModel.role_name))
               fresh_account_keeps_roles fresh_account_answers_client _))).
  vm_compute. reflexivity.
Defined.

Lemma deployers_use_the_resolved_role_witness :
  exists resolved,
    role (DeployModel.deploy_model_descriptor
            (Arn (account_role DeployModel.role_name)))
    = Arn resolved
    /\ In (GetRole DeployModel.role_name (Ok resolved))
          (iam_calls (events (DeployModel.deploy_model "ml.t2.medium" "demo-ep")
                        all_ok [])).
Proof.
  destruct (proj1 (deployers_use_the_resolved_role all_ok [] "ml.t2.medium" "demo-ep")
              (DeployModel.deploy_model_descriptor
                 (Arn (account_role DeployModel.role_name)))
              {| initial_instance_count := Some 1;
                 instance_type := Some "ml.t2.medium";
                 serverless_inference_config := None;
                 endpoint_name := "demo-ep";
                 wait := None;
                 tags := None |}
              (Ok {| predictor_endpoint_name := "demo-ep" |}))
    as (resolved & Hrole & _ & [Hfound|(document & description & Hcreated)]).
  - vm_compute. left. reflexivity.
  - exists resolved. split; assumption.
  - vm_compute in Hcreated. destruct Hcreated as [H|[]]. discriminate H.
Defined.

Lemma deploy_model_smoke_test_failure_witness :
  In "✅ DEPLOYMENT SUCCESSFUL!"
     (printed (events (DeployModel.deploy_model "ml.t2.medium" "demo-ep")
                 silent_endpoint []))
  /\ result (DeployModel.deploy_model "ml.t2.medium" "demo-ep") silent_endpoint []
     = Ok tt.
Proof.
  destruct (deploy_model_smoke_test_failure silent_endpoint []
              "ml.t2.medium" "demo-ep"
              {| predictor_endpoint_name := "demo-ep" |}
              DeployModel.test_payload
              (mkExn OtherException "Read timed out"))
    as (_ & Hsuccess & _ & _ & _ & Hres).
  - vm_compute. right. left. reflexivity.
  - split; assumption.
Defined.

Lemma main_deletes_on_request_only_witness :
  let args := {| DeployModel.args_instance_type := "ml.t2.medium";
                 DeployModel.args_endpoint_name := "travel-assistant-endpoint";
                 DeployModel.args_serverless := true;
                 DeployModel.args_list := false;
                 DeployModel.args_delete := Some "demo-ep" |} in
  In (DeleteEndpoint "demo-ep" (Ok tt))
     (endpoint_calls (events (DeployModel.main args) all_ok []))
  /\ DeployModel.args_delete args = Some "demo-ep".
Proof.
  intros args.
  assert (H : In (DeleteEndpoint "demo-ep" (Ok tt))
                 (endpoint_calls (events (DeployModel.main args) all_ok []))).
  { vm_compute. left. reflexivity. }
  split; [exact H|].
  exact (proj1 (proj2 (proj1 (main_deletes_on_request_only all_ok [] args) _ _ H))).
Defined.

Lemma deploy_travel_model_raises_witness :
  result Scripts.deploy_travel_model bad_model []
  = Raise (mkExn OtherException "Unsupported transformers version")
  /\ hosting_calls (events Scripts.deploy_travel_model bad_model []) = [].
Proof.
  assert (H : In (mkExn OtherException "Unsupported transformers version")
                 (construction_failures
                    (events Scripts.deploy_travel_model bad_model []))).
  { vm_compute. left. reflexivity. }
  split.
  - exact (proj2 (proj1 (deploy_travel_model_raises bad_model [] _)) H).
  - exact (proj2 (deploy_travel_model_raises bad_model [] _) H).
Defined.

Lemma lifecycle_uncaught_failures_witness :
  result (Scripts.cleanup_endpoint "demo-ep") no_region []
  = Raise (mkExn OtherException "You must specify a region.")
  /\ result (Scripts.check_endpoint_status "demo-ep") unreachable []
     = Raise connection_error.
Proof.
  split.
  - refine (proj2 (proj1 (lifecycle_uncaught_failures no_region [] "demo-ep" _)) _).
    vm_compute. left. reflexivity.
  - refine (proj2 (proj1 (proj2
              (lifecycle_uncaught_failures unreachable [] "demo-ep" _))) _).
    right. split; [vm_compute; left; reflexivity | reflexivity].
Defined.

Lemma check_endpoint_status_message_witness :
  printed (events (Scripts.check_endpoint_status "demo-ep") busy_account [])
  = ["📊 Endpoint 'demo-ep' status: Creating";
     "⏳ Endpoint is being deployed..."].
Proof.
  destruct (proj1 (check_endpoint_status_message busy_account [] "demo-ep"
                     "Creating" ltac:(vm_compute; left; reflexivity)))
    as (message & Hprinted & _ & Hdeploying & _).
  rewrite Hprinted.
  rewrite (proj2 Hdeploying (or_introl eq_refl)). reflexivity.
Defined.

Lemma scripts_main_touches_witness :
  let args := {| Scripts.action := Scripts.cleanup; Scripts.endpoint := "demo-ep" |} in
  In (DeleteEndpointConfig "demo-ep" (Ok tt))
     (endpoint_calls (events (Scripts.main args) all_ok []))
  /\ Scripts.action args = Scripts.cleanup.
Proof.
  intros args.
  assert (H : In (DeleteEndpointConfig "demo-ep" (Ok tt))
                 (endpoint_calls (events (Scripts.main args) all_ok []))).
  { vm_compute. right. left. reflexivity. }
  split; [exact H|].
  exact (proj1 (proj1 (proj2 (scripts_main_touches all_ok [] args)) _ H)).
Defined.

Lemma test_query_reads_reply_witness :
  let predictor := {| predictor_endpoint_name := "demo-ep" |} in
  In (EPrintVal "✅ Response: " (PyStr "No response") "...")
     (events (Scripts.test_query predictor 1 "Plan a 3-day itinerary for Paris")
        wordless [])
  /\ In (EPrintVal "✅ Response: " (PyStr (str_repeat "東京" 100)) "...")
        (events (Scripts.test_query predictor 1 "Plan a 3-day itinerary for Paris")
           polyglot []).
Proof.
  intros predictor. split.
  - refine (proj1 (proj1 (test_query_reads_reply wordless [] predictor 1
                            "Plan a 3-day itinerary for Paris"
                            (PyList [PyDict [("score", PyFloat "0.5")]]) _)
                     [("score", PyFloat "0.5")] [] eq_refl) eq_refl).
    vm_compute. left. reflexivity.
  - refine (proj2 (proj1 (test_query_reads_reply polyglot [] predictor 1
                            "Plan a 3-day itinerary for Paris"
                            (PyList [PyDict [("generated_text",
                                              PyStr (str_repeat "東京" 150))]]) _)
                     [("generated_text", PyStr (str_repeat "東京" 150))] [] eq_refl)
              (str_repeat "東京" 150) eq_refl).
    vm_compute. left. reflexivity.
Defined.

End FurtherExamples.
